(** * raster.py: custom R-raster loader and raster-to-table flattening

    A shallow embedding of [raster.py] (Python 3: the module imports
    [configparser] and calls [print] as a function).

    The module is glue around three libraries.  What the module itself
    computes is embedded as functions below; what the libraries do is
    embedded only as far as the module observes it:

    - exceptions are values of [Res]; [print] appends to an output log;
    - Python [int] is [Z], Python [float] is an IEEE-754 binary64 value
      ([spec_float] with precision 53 and emax 1024), [bool] is [bool];
    - a [dict] with string keys is a [gmap string _], a list indexed by
      position uses the list lookup of stdpp with the [IndexError] of
      Python written out;
    - a GDAL dataset is a record of what the module reads and writes on
      the handle; [WriteArray] converts the array it is handed to the
      pixel type of the band, and the converted cells are what
      [ReadAsArray] gives back. *)

From Stdlib Require Import ZArith QArith Strings.String Strings.Ascii Strings.Byte.
From Stdlib Require Import Floats.SpecFloat.
From stdpp Require Import base option list strings gmap pretty.

Local Open Scope string_scope.
Local Open Scope Z_scope.

(** ** Exceptions *)

Module Py.

Inductive exc_class :=
  | Exception | TypeError | ValueError | IndexError | KeyError
  | UnboundLocalError | NameError | AttributeError
  | ZeroDivisionError | OverflowError | OSError | RuntimeError
  | StructError | NoSectionError | NoOptionError | ParsingError.

(** An exception instance: its class and the text it carries.  For the
    exceptions the interpreter and the libraries raise, the text names
    the offending key, variable or index. *)
Record exn := Exn { exn_class : exc_class; exn_msg : string }.

Inductive Res (A : Type) :=
  | Ok (a : A)
  | Raise (e : exn).
Arguments Ok {A} a.
Arguments Raise {A} e.

Definition bind {A B} (m : Res A) (k : A -> Res B) : Res B :=
  match m with
  | Ok a => k a
  | Raise e => Raise e
  end.

Definition raised {A} (m : Res A) : Prop := exists e, m = Raise e.

(** What a [raise] statement is given.  [raise Exception(msg)] hands an
    instance; [raise (Exception, msg)] hands a tuple, which Python 3
    refuses with a [TypeError] of its own. *)
Inductive raise_operand :=
  | RaiseInstance (e : exn)
  | RaiseTuple (cls : exc_class) (rest : list string).

Definition raise_stmt {A} (o : raise_operand) : Res A :=
  match o with
  | RaiseInstance e => Raise e
  | RaiseTuple _ _ =>
      Raise (Exn TypeError "exceptions must derive from BaseException")
  end.

End Py.
Import Py.

Declare Scope res_scope.
Delimit Scope res_scope with res.
Notation "x <- m ;; k" := (bind m (fun x => k))
  (at level 100, m at next level, right associativity) : res_scope.
Notation "m ;;; k" := (bind m (fun _ => k))
  (at level 100, right associativity) : res_scope.
Local Open Scope res_scope.

(** ** Strings: [str.split], [str.join], [os.path.basename] *)

Definition extsep : ascii := "."%char.

(** [s.split(sep)] for a one-character separator: never empty. *)
Fixpoint split (sep : ascii) (s : string) : list string :=
  match s with
  | EmptyString => [EmptyString]
  | String c s' =>
      if Ascii.eqb c sep then EmptyString :: split sep s'
      else match split sep s' with
           | t :: ts => String c t :: ts
           | [] => [String c EmptyString]
           end
  end.

Definition join (sep : ascii) (tokens : list string) : string :=
  String.concat (String sep EmptyString) tokens.

(** [tokens[-1] = v]: [IndexError] on the empty list. *)
Definition set_last (tokens : list string) (v : string) : Res (list string) :=
  match tokens with
  | [] => Raise (Exn IndexError "list assignment index out of range")
  | _ => Ok (<[ Nat.pred (length tokens) := v ]> tokens)
  end.

(** [tokens[-1]] *)
Definition get_last (tokens : list string) : Res string :=
  match last tokens with
  | Some t => Ok t
  | None => Raise (Exn IndexError "list index out of range")
  end.

(** [os.path.basename]: what follows the last slash. *)
Fixpoint basename (p : string) : string :=
  match p with
  | EmptyString => EmptyString
  | String c p' =>
      if existsb (Ascii.eqb "/"%char) (list_ascii_of_string p')
      then basename p'
      else if Ascii.eqb c "/"%char then p' else p
  end.

(** ** Numbers

    [struct.unpack] yields [bool], [int] or [float] items; the sidecar
    yields [float]s through [getfloat] and [int]s through [getint]. *)

Abbreviation float := spec_float.

Inductive num :=
  | NBool (b : bool)
  | NInt (z : Z)
  | NFloat (f : float).

Definition prec : Z := 53.
Definition emax : Z := 1024.

(** [float(z)] for an [int]: round to nearest even, [OverflowError]
    beyond the largest finite double. *)
Definition float_of_int (z : Z) : Res float :=
  match binary_normalize prec emax z 0 false with
  | S754_infinity _ => Raise (Exn OverflowError "int too large to convert to float")
  | f => Ok f
  end.

Definition fadd : float -> float -> float := SFadd prec emax.
Definition fsub : float -> float -> float := SFsub prec emax.
Definition fmul : float -> float -> float := SFmul prec emax.
Definition fdiv : float -> float -> float := SFdiv prec emax.

Definition is_zero (f : float) : bool :=
  match f with S754_zero _ => true | _ => false end.

(** [a / b] on Python floats raises on a zero divisor. *)
Definition float_truediv (a b : float) : Res float :=
  if is_zero b then Raise (Exn ZeroDivisionError "float division by zero")
  else Ok (fdiv a b).

(** [a / n], [a * n] with [a] a float and [n] an int: [n] is converted
    first. *)
Definition float_div_int (a : float) (n : Z) : Res float :=
  b <- float_of_int n ;; float_truediv a b.

Definition float_mul_int (a : float) (n : Z) : Res float :=
  b <- float_of_int n ;; Ok (fmul a b).

(** Comparison.  Python compares an [int] with a [float], and two
    floats, by their exact values; every comparison with a NaN is
    false.  The value of a number is an extended rational. *)
Inductive ext :=
  | NegInf
  | Fin (q : Q)
  | PosInf.

Definition ext_leb (a b : ext) : bool :=
  match a, b with
  | NegInf, _ => true
  | _, PosInf => true
  | Fin p, Fin q => Qle_bool p q
  | _, _ => false
  end.

Definition ext_eqb (a b : ext) : bool :=
  match a, b with
  | NegInf, NegInf => true
  | PosInf, PosInf => true
  | Fin p, Fin q => Qeq_bool p q
  | _, _ => false
  end.

Definition float_value (f : float) : option ext :=
  match f with
  | S754_nan => None
  | S754_infinity s => Some (if s then NegInf else PosInf)
  | S754_zero _ => Some (Fin 0%Q)
  | S754_finite s m e =>
      let v := cond_Zopp s (Zpos m) in
      Some (Fin (match e with
                 | Zneg p => Qmake v (2 ^ p)%positive
                 | _ => inject_Z (v * 2 ^ e)
                 end))
  end.

Definition num_value (x : num) : option ext :=
  match x with
  | NBool b => Some (Fin (inject_Z (if b then 1 else 0)))
  | NInt z => Some (Fin (inject_Z z))
  | NFloat f => float_value f
  end.

(** [x <= y], [x >= y], [x == y] *)
Definition py_le (x y : num) : bool :=
  match num_value x, num_value y with
  | Some a, Some b => ext_leb a b
  | _, _ => false
  end.

Definition py_ge (x y : num) : bool := py_le y x.

Definition py_lt (x y : num) : bool :=
  match num_value x, num_value y with
  | Some a, Some b => negb (ext_leb b a)
  | _, _ => false
  end.

Definition py_eq (x y : num) : bool :=
  match num_value x, num_value y with
  | Some a, Some b => ext_eqb a b
  | _, _ => false
  end.

(** The double nearest to an integer: float literals such as [-9999.0]. *)
Definition float_lit (z : Z) : float := binary_normalize prec emax z 0 false.

(** ** [struct]: the format table and [struct.unpack] *)

Inductive fmt_code :=
  | fmt_bool   (* '?' *)
  | fmt_b | fmt_h | fmt_i | fmt_q   (* signed, 1 2 4 8 bytes *)
  | fmt_B | fmt_H                   (* unsigned, 1 2 bytes *)
  | fmt_f | fmt_d.                  (* binary32, binary64 *)

Inductive byte_order := LittleEndian | BigEndian.

Inductive gdal_type :=
  | GDT_Byte | GDT_Int16 | GDT_UInt16 | GDT_Int32 | GDT_Float32 | GDT_Float64.

(** The three module-level dictionaries. *)
Definition DATATYPES : gmap string fmt_code :=
  list_to_map
    [("LOG1S", fmt_bool); ("INT1S", fmt_b); ("INT2S", fmt_h);
     ("INT4S", fmt_i); ("INT8S", fmt_q); ("INT1U", fmt_B);
     ("INT2U", fmt_H); ("FLT4S", fmt_f); ("FLT8S", fmt_d)].

Definition BYTEORDER : gmap string byte_order :=
  list_to_map [("little", LittleEndian); ("big", BigEndian)].

Definition GDALTYPES : gmap string gdal_type :=
  list_to_map
    [("LOG1S", GDT_Byte); ("INT1S", GDT_Byte); ("INT2S", GDT_Int16);
     ("INT4S", GDT_Int32); ("INT8S", GDT_Int32); ("INT1U", GDT_Byte);
     ("INT2U", GDT_UInt16); ("FLT4S", GDT_Float32); ("FLT8S", GDT_Float64)].

(** [d[key]] on a dict with string keys. *)
Definition dict_get {V} (d : gmap string V) (key : string) : Res V :=
  match d !! key with
  | Some v => Ok v
  | None => Raise (Exn KeyError key)
  end.

(** [struct.calcsize] of a single code. *)
Definition calcsize (c : fmt_code) : Z :=
  match c with
  | fmt_bool | fmt_b | fmt_B => 1
  | fmt_h | fmt_H => 2
  | fmt_i | fmt_f => 4
  | fmt_q | fmt_d => 8
  end.

Definition byte_val (b : byte) : Z := Z.of_N (Byte.to_N b).

(** Unsigned value of a little-endian byte string. *)
Fixpoint le_uint (bs : list byte) : Z :=
  match bs with
  | [] => 0
  | b :: rest => byte_val b + 256 * le_uint rest
  end.

Definition uint_of (bo : byte_order) (bs : list byte) : Z :=
  match bo with
  | LittleEndian => le_uint bs
  | BigEndian => le_uint (rev bs)
  end.

(** Two's complement reading of a [w]-bit unsigned value. *)
Definition to_signed (w : Z) (u : Z) : Z :=
  if u <? 2 ^ (w - 1) then u else u - 2 ^ w.

(** IEEE-754 decoding of a bit pattern with [mbits] fraction bits and
    [ebits] exponent bits, as the double of the same value. *)
Definition decode_float (mbits ebits : Z) (u : Z) : float :=
  let sign := Z.testbit u (mbits + ebits) in
  let e := Z.land (Z.shiftr u mbits) (Z.ones ebits) in
  let m := Z.land u (Z.ones mbits) in
  let bias := 2 ^ (ebits - 1) - 1 in
  if e =? Z.ones ebits then
    if m =? 0 then S754_infinity sign else S754_nan
  else if e =? 0 then
    binary_normalize prec emax (cond_Zopp sign m) (1 - bias - mbits) sign
  else
    binary_normalize prec emax (cond_Zopp sign (m + 2 ^ mbits)) (e - bias - mbits) sign.

Definition decode_item (bo : byte_order) (c : fmt_code) (bs : list byte) : num :=
  let u := uint_of bo bs in
  match c with
  | fmt_bool => NBool (negb (u =? 0))
  | fmt_b => NInt (to_signed 8 u)
  | fmt_h => NInt (to_signed 16 u)
  | fmt_i => NInt (to_signed 32 u)
  | fmt_q => NInt (to_signed 64 u)
  | fmt_B | fmt_H => NInt u
  | fmt_f => NFloat (decode_float 23 8 u)
  | fmt_d => NFloat (decode_float 52 11 u)
  end.

(** [n] consecutive chunks of [k] items. *)
Fixpoint chunks {A} (n k : nat) (l : list A) : list (list A) :=
  match n with
  | O => []
  | S n' => take k l :: chunks n' k (drop k l)
  end.

(** A format string [<byte order><count><code>], kept in parts. *)
Record format := Format { fmt_order : byte_order; fmt_count : Z; fmt_item : fmt_code }.

(** [struct.unpack(fmt, buffer)]: the buffer must have exactly the size
    the format asks for. *)
Definition unpack (fmt : format) (buffer : list byte) : Res (list num) :=
  let size := fmt_count fmt * calcsize (fmt_item fmt) in
  if Z.of_nat (length buffer) =? size then
    Ok (map (decode_item (fmt_order fmt) (fmt_item fmt))
            (chunks (Z.to_nat (fmt_count fmt)) (Z.to_nat (calcsize (fmt_item fmt))) buffer))
  else
    Raise (Exn StructError ("unpack requires a buffer of " +:+ pretty size +:+ " bytes")).

(** ** [numpy]: [array], [reshape], [flatten] *)

Definition is_float (x : num) : bool :=
  match x with NFloat _ => true | _ => false end.

Definition is_int (x : num) : bool :=
  match x with NInt _ => true | _ => false end.

Definition as_float (x : num) : float :=
  match x with
  | NBool b => float_lit (if b then 1 else 0)
  | NInt z => float_lit z
  | NFloat f => f
  end.

Definition as_int (x : num) : num :=
  match x with
  | NBool b => NInt (if b then 1 else 0)
  | other => other
  end.

(** [array(values)]: one element type for the whole array, the widest
    among the items. *)
Definition np_array (values : list num) : list num :=
  if existsb is_float values then map (fun x => NFloat (as_float x)) values
  else if existsb is_int values then map as_int values
  else values.

(** [reshape(arr, (r, c))] of a flat array.  A dimension [-1] is
    inferred from the size; the sizes must agree otherwise. *)
Definition reshape (arr : list num) (r c : Z) : Res (list (list num)) :=
  let n := Z.of_nat (length arr) in
  let cut (r c : Z) := Ok (chunks (Z.to_nat r) (Z.to_nat c) arr) in
  if (r <? -1) || (c <? -1) then
    Raise (Exn ValueError "negative dimensions not allowed")
  else if (r =? -1) && (c =? -1) then
    Raise (Exn ValueError "can only specify one unknown dimension")
  else if r =? -1 then
    if (negb (c =? 0)) && (n mod c =? 0) then cut (n / c) c
    else Raise (Exn ValueError "cannot reshape array")
  else if c =? -1 then
    if (negb (r =? 0)) && (n mod r =? 0) then cut r (n / r)
    else Raise (Exn ValueError "cannot reshape array")
  else if r * c =? n then cut r c
  else Raise (Exn ValueError "cannot reshape array").

(** [a.flatten()]: row-major. *)
Definition flatten (a : list (list num)) : list num := concat a.

(** ** GDAL handles *)

(** The six coefficients, in the order of the tuple. *)
Record geotransform := GT {
  origin_x : float;        (* [0] *)
  pixel_width : float;     (* [1] *)
  row_rotation : float;    (* [2] *)
  origin_y : float;        (* [3] *)
  column_rotation : float; (* [4] *)
  pixel_height : float     (* [5] *)
}.

Record Band := {
  band_description : string;
  band_type : gdal_type;
  band_array : list (list num);
  band_nodata : option float
}.

Record Dataset := {
  description : string;
  RasterXSize : Z;
  RasterYSize : Z;
  GeoTransform : geotransform;
  Projection : string;
  bands : list Band
}.

Definition RasterCount (ds : Dataset) : Z := Z.of_nat (length (bands ds)).

Inductive access := GA_ReadOnly | GA_Update.

Definition fzero : float := S754_zero false.

Definition zero_of (t : gdal_type) : num :=
  match t with
  | GDT_Float32 | GDT_Float64 => NFloat fzero
  | _ => NInt 0
  end.

(** [driver.Create(path, xsize, ysize, 1, type)] of the MEM driver: a
    dataset of one zero-filled band, refused unless both sizes are
    positive. *)
Definition driver_Create (path : string) (xsize ysize : Z) (t : gdal_type) : Res Dataset :=
  if (xsize <? 1) || (ysize <? 1) then
    Raise (Exn RuntimeError "Attempt to create dataset with illegal size")
  else
    Ok {| description := path;
          RasterXSize := xsize;
          RasterYSize := ysize;
          GeoTransform := GT fzero (float_lit 1) fzero fzero fzero (float_lit 1);
          Projection := "";
          bands := [ {| band_description := "";
                        band_type := t;
                        band_array := replicate (Z.to_nat ysize)
                                        (replicate (Z.to_nat xsize) (zero_of t));
                        band_nodata := None |} ] |}.

Definition SetGeoTransform (ds : Dataset) (g : geotransform) : Dataset :=
  {| description := description ds; RasterXSize := RasterXSize ds;
     RasterYSize := RasterYSize ds; GeoTransform := g;
     Projection := Projection ds; bands := bands ds |}.

Definition SetProjection (ds : Dataset) (wkt : string) : Dataset :=
  {| description := description ds; RasterXSize := RasterXSize ds;
     RasterYSize := RasterYSize ds; GeoTransform := GeoTransform ds;
     Projection := wkt; bands := bands ds |}.

(** [ds.GetRasterBand(k)], bands counted from one. *)
Definition GetRasterBand (ds : Dataset) (k : Z) : Res Band :=
  if k <? 1 then Raise (Exn RuntimeError "Illegal band number")
  else match bands ds !! Z.to_nat (k - 1) with
       | Some b => Ok b
       | None => Raise (Exn RuntimeError "Illegal band number")
       end.

(** A band object writes through to its dataset. *)
Definition update_band (ds : Dataset) (k : Z) (f : Band -> Band) : Dataset :=
  {| description := description ds; RasterXSize := RasterXSize ds;
     RasterYSize := RasterYSize ds; GeoTransform := GeoTransform ds;
     Projection := Projection ds;
     bands := alter f (Z.to_nat (k - 1)) (bands ds) |}.

Definition overlay_row (new old : list num) : list num :=
  new ++ drop (length new) old.

Fixpoint overlay (new old : list (list num)) : list (list num) :=
  match new, old with
  | [], _ => old
  | n :: ns, o :: os => overlay_row n o :: overlay ns os
  | _ :: _, [] => []
  end.

Definition fits (xsize ysize : Z) (arr : list (list num)) : bool :=
  (Z.of_nat (length arr) <=? ysize)
  && forallb (fun row => Z.of_nat (length row) <=? xsize) arr.

(** The values an integer pixel type holds. *)
Definition pixel_range (t : gdal_type) : option (Z * Z) :=
  match t with
  | GDT_Byte => Some (0, 255)
  | GDT_Int16 => Some (-32768, 32767)
  | GDT_UInt16 => Some (0, 65535)
  | GDT_Int32 => Some (-2147483648, 2147483647)
  | GDT_Float32 | GDT_Float64 => None
  end.

Definition clamp (lo hi z : Z) : Z := Z.max lo (Z.min hi z).

(** A number as an integer pixel between [lo] and [hi]: rounded to the
    nearest integer, halves away from zero, and clamped to the range;
    a NaN becomes 0. *)
Definition to_pixel_int (lo hi : Z) (x : num) : Z :=
  match x with
  | NBool b => clamp lo hi (if b then 1 else 0)
  | NInt z => clamp lo hi z
  | NFloat S754_nan => 0
  | NFloat (S754_infinity s) => if s then lo else hi
  | NFloat (S754_zero _) => clamp lo hi 0
  | NFloat (S754_finite s m e) =>
      clamp lo hi
        (cond_Zopp s
           (match e with
            | Zneg p => (Zpos m + 2 ^ (Zpos p - 1)) / 2 ^ Zpos p
            | _ => Zpos m * 2 ^ e
            end))
  end.

(** A double rounded to binary32 (to nearest, ties to even), as the
    double of the same value. *)
Definition to_single (f : float) : float :=
  match f with
  | S754_finite s m e =>
      match binary_round 24 128 s m e with
      | S754_finite s' m' e' => binary_normalize prec emax (cond_Zopp s' (Zpos m')) e' s'
      | other => other
      end
  | _ => f
  end.

(** What a band of pixel type [t] stores for the array item [x], and
    [ReadAsArray] returns for it. *)
Definition gdal_convert (t : gdal_type) (x : num) : num :=
  match pixel_range t with
  | Some (lo, hi) => NInt (to_pixel_int lo hi x)
  | None =>
      match t with
      | GDT_Float32 => NFloat (to_single (as_float x))
      | _ => NFloat (as_float x)
      end
  end.

(** [band.WriteArray(arr)]: the array is written from the top-left
    cell; an array larger than the raster is refused. *)
Definition WriteArray (ds : Dataset) (k : Z) (arr : list (list num)) : Res Dataset :=
  if fits (RasterXSize ds) (RasterYSize ds) arr then
    Ok (update_band ds k (fun b =>
          {| band_description := band_description b; band_type := band_type b;
             band_array := overlay (map (map (gdal_convert (band_type b))) arr)
                             (band_array b);
             band_nodata := band_nodata b |}))
  else Raise (Exn ValueError "array larger than output file").

Definition SetNoDataValue (ds : Dataset) (k : Z) (v : float) : Dataset :=
  update_band ds k (fun b =>
    {| band_description := band_description b; band_type := band_type b;
       band_array := band_array b; band_nodata := Some v |}).

(** ** The world outside the module

    What the module asks of the interpreter and of its libraries:
    number parsing, the files, the projection library, [gdal.Open], and
    the global name [resample_and_reproject], which [raster.py] calls
    but does not define. *)

Inductive ini_file :=
  | IniUnreadable                                 (* no such file, not readable *)
  | IniMalformed                                  (* read, but not an INI file *)
  | IniParsed (cfg : gmap string (gmap string string)).

Record World := {
  py_int : string -> option Z;                    (* int(text) *)
  py_float : string -> option float;              (* float(text) *)
  ini_files : string -> ini_file;                 (* ConfigParser.read *)
  bin_files : string -> option (list byte);       (* open(path, 'rb').read() *)
  proj4_to_wkt : string -> string;                (* ImportFromProj4, ExportToWkt *)
  gdal_Open : string -> access -> Res Dataset;    (* gdal.Open, exceptions enabled *)
  resample_global : option (list Dataset -> Res (list Dataset))
}.

(** ** [configparser] *)

(** [config.read(path)]: the sections read and the list of files that
    could be read; an unreadable file is skipped silently. *)
Definition config_read (w : World) (path : string)
  : Res (gmap string (gmap string string) * list string) :=
  match ini_files w path with
  | IniUnreadable => Ok (∅, [])
  | IniMalformed => Raise (Exn ParsingError path)
  | IniParsed cfg => Ok (cfg, [path])
  end.

Definition config_get (cfg : gmap string (gmap string string)) (section option : string)
  : Res string :=
  match cfg !! section with
  | None => Raise (Exn NoSectionError section)
  | Some s =>
      match s !! option with
      | None => Raise (Exn NoOptionError option)
      | Some v => Ok v
      end
  end.

Definition config_getint (w : World) (cfg : gmap string (gmap string string))
    (section option : string) : Res Z :=
  v <- config_get cfg section option ;;
  match py_int w v with
  | Some z => Ok z
  | None => Raise (Exn ValueError v)
  end.

Definition config_getfloat (w : World) (cfg : gmap string (gmap string string))
    (section option : string) : Res float :=
  v <- config_get cfg section option ;;
  match py_float w v with
  | Some f => Ok f
  | None => Raise (Exn ValueError v)
  end.

Definition open_rb (w : World) (path : string) : Res (list byte) :=
  match bin_files w path with
  | Some content => Ok content
  | None => Raise (Exn OSError path)
  end.

(** ** [all_equal] *)

(** [sequence.count(sequence[0]) == len(sequence)].  [count] compares
    with [==]; the first item is the very object it is compared with,
    which counts without a comparison. *)
Definition all_equal {A} (eqb : A -> A -> bool) (sequence : list A) : Res bool :=
  match sequence with
  | [] => Raise (Exn IndexError "tuple index out of range")
  | x0 :: rest =>
      Ok (Nat.eqb (S (length (filter (fun x => eqb x x0 = true) rest)))
                  (length sequence))
  end.

(** ** [load_r_raster] *)

(** The list comprehension that "makes sure nodata values are
    correct": [x if (x <= minval and x >= maxval) else nodatavalue]. *)
Definition keep_or_nodata (minval maxval nodatavalue : float) (x : num) : num :=
  if py_le x (NFloat minval) && py_ge x (NFloat maxval) then x
  else NFloat nodatavalue.

Definition load_r_raster (w : World) (filename : string) : Res Dataset :=
  let tokens := split extsep filename in
  tokens <- set_last tokens "grd" ;;
  let ini_path := join extsep tokens in
  tokens <- set_last tokens "gri" ;;
  let bin_path := join extsep tokens in
  cr <- config_read w ini_path ;;
  let config := fst cr in
  let res := snd cr in
  (if Nat.eqb (length res) 0
   then raise_stmt (RaiseTuple Exception ["could not read R raster file " +:+ ini_path])
   else Ok tt) ;;;
  binstring <- open_rb w bin_path ;;
  datatype <- config_get config "data" "datatype" ;;
  byteorder <- config_get config "data" "byteorder" ;;
  dt <- dict_get DATATYPES datatype ;;
  bo <- dict_get BYTEORDER byteorder ;;
  let fmt := Format bo (Z.of_nat (length binstring) / calcsize dt) dt in
  values <- unpack fmt binstring ;;
  ncols <- config_getint w config "georeference" "ncols" ;;
  nrows <- config_getint w config "georeference" "nrows" ;;
  xmax <- config_getfloat w config "georeference" "xmax" ;;
  xmin <- config_getfloat w config "georeference" "xmin" ;;
  ymax <- config_getfloat w config "georeference" "ymax" ;;
  ymin <- config_getfloat w config "georeference" "ymin" ;;
  xres <- float_div_int (fsub xmax xmin) ncols ;;
  yres <- float_div_int (fsub ymax ymin) nrows ;;
  minval <- config_getfloat w config "data" "minvalue" ;;
  maxval <- config_getfloat w config "data" "maxvalue" ;;
  nodatavalue <- config_getfloat w config "data" "nodatavalue" ;;
  let values := map (keep_or_nodata minval maxval nodatavalue) values in
  let arr := np_array values in
  arr <- reshape arr nrows ncols ;;
  tokens <- set_last tokens "tif" ;;
  let raster_path := join extsep tokens in
  gdaltype <- dict_get GDALTYPES datatype ;;
  gdal_ds <- driver_Create raster_path ncols nrows gdaltype ;;
  let gdal_ds := SetGeoTransform gdal_ds (GT xmin xres fzero ymax fzero yres) in
  band <- GetRasterBand gdal_ds 1 ;;
  gdal_ds <- WriteArray gdal_ds 1 arr ;;
  let gdal_ds := SetNoDataValue gdal_ds 1 nodatavalue in
  proj4 <- config_get config "georeference" "projection" ;;
  let gdal_ds := SetProjection gdal_ds (proj4_to_wkt w proj4) in
  Ok gdal_ds.

(** ** [load] *)

(** The raster type [load] acts on: the hint when one is given (a
    non-empty string), else what the extension says. *)
Definition resolve_rastertype (filename : string) (rastertype : option string)
  : Res (option string) :=
  match rastertype with
  | Some (String c rest) => Ok rastertype
  | _ =>
      ext <- get_last (split extsep filename) ;;
      if String.eqb ext "gri" || String.eqb ext "grd" then Ok (Some "r-raster")
      else if String.eqb ext "bil" then Ok (Some "bil")
      else Ok rastertype
  end.

(** The result of [load] with what it printed.  [None] is Python's
    [None]: the function falls off its end after the [except]. *)
Definition load (w : World) (filename : string) (rastertype : option string)
  : list string * Res (option Dataset) :=
  match resolve_rastertype filename rastertype with
  | Raise e => ([], Raise e)
  | Ok rastertype =>
      if bool_decide (rastertype = Some "r-raster") then
        ([], ds <- load_r_raster w filename ;; Ok (Some ds))
      else
        match gdal_Open w filename GA_ReadOnly with
        | Ok ds => ([], Ok (Some ds))
        | Raise _ => (["could not open raster file " +:+ filename], Ok None)
        end
  end.

(** ** [numpy]: [linspace], [meshgrid] *)

(** [linspace(start, stop, num)], end point included: [num] evenly
    spaced samples, the last one set to [stop]. *)
Definition linspace (start stop : float) (num : Z) : Res (list float) :=
  if num <? 0 then
    Raise (Exn ValueError ("Number of samples, " +:+ pretty num +:+ ", must be non-negative."))
  else
    let div := num - 1 in
    let delta := fsub stop start in
    let ks := map (fun k => float_lit (Z.of_nat k)) (seq 0 (Z.to_nat num)) in
    let y :=
      if 0 <? div then
        let step := fdiv delta (float_lit div) in
        if is_zero step
        then map (fun k => fmul (fdiv k (float_lit div)) delta) ks
        else map (fun k => fmul k step) ks
      else map (fun k => fmul k delta) ks in
    let y := map (fun v => fadd v start) y in
    Ok (if 1 <? num then <[ Z.to_nat (num - 1) := stop ]> y else y).

(** [meshgrid(xs, ys)]: two arrays of [len(ys)] rows and [len(xs)]
    columns. *)
Definition meshgrid (xs ys : list float) : list (list float) * list (list float) :=
  (replicate (length ys) xs, map (fun y => replicate (length xs) y) ys).

(** ** [make_table] *)

(** What a row maps a key to: a band value, or (for [x] and [y]) the
    one-dimensional array that indexing a mesh by one index gives. *)
Inductive cell :=
  | CNum (v : num)
  | CArr (a : list float).

(** The local variables that live across the loops.  [band_name] and
    [i] are unbound until a statement assigns them. *)
Record locals := Locals {
  name : string;
  band_name : option string;
  i : option nat
}.

Definition unbound {A} (var : string) : Res A :=
  Raise (Exn UnboundLocalError var).

(** The naming statements at the head of the loop over bands. *)
Definition name_band (n_bands : Z) (b : Band) (st : locals) : Res locals :=
  let name := band_description b in
  if String.eqb name "" then
    if 1 <? n_bands then
      match i st with
      | None => unbound "i"
      | Some i0 =>
          Ok (Locals name (Some (name +:+ "_" +:+ pretty (Z.of_nat i0 + 1))) (Some i0))
      end
    else Ok (Locals name (Some name) (i st))
  else Ok (Locals name (band_name st) (i st)).

(** [for i, v in enumerate(values): instances[i][band_name] = v],
    from position [k] on. *)
Fixpoint store_values (band_name : option string) (k : nat) (values : list num)
    (instances : list (gmap string cell)) (i : option nat)
  : Res (list (gmap string cell) * option nat) :=
  match values with
  | [] => Ok (instances, i)
  | v :: rest =>
      match instances !! k with
      | None => Raise (Exn IndexError "list index out of range")
      | Some inst =>
          match band_name with
          | None => unbound "band_name"
          | Some key =>
              store_values band_name (S k) rest
                (<[ k := <[ key := CNum v ]> inst ]> instances) (Some k)
          end
      end
  end.

(** [for b in bands: ...] *)
Fixpoint band_loop (n_bands : Z) (bs : list Band)
    (instances : list (gmap string cell)) (st : locals)
  : Res (list (gmap string cell) * locals) :=
  match bs with
  | [] => Ok (instances, st)
  | b :: rest =>
      st <- name_band n_bands b st ;;
      let values := flatten (band_array b) in
      r <- store_values (band_name st) 0 values instances (i st) ;;
      band_loop n_bands rest (fst r) (Locals (name st) (band_name st) (snd r))
  end.

(** [for r in rasters: ...] *)
Fixpoint raster_loop (rasters : list Dataset)
    (instances : list (gmap string cell)) (bn : option string) (ix : option nat)
  : Res (list (gmap string cell) * option string * option nat) :=
  match rasters with
  | [] => Ok (instances, bn, ix)
  | r :: rest =>
      let fn := description r in
      let name := default "" (head (split extsep (basename fn))) in
      let n_bands := RasterCount r in
      let bands := bands r in
      res <- band_loop n_bands bands instances (Locals name bn ix) ;;
      raster_loop rest (fst res) (band_name (snd res)) (i (snd res))
  end.

(** [for i, inst in enumerate(instances): inst['x'] = x_mesh[i];
    inst['y'] = y_mesh[i]], from position [k] on.  A mesh has as many
    rows as the grid; an index past them is an [IndexError]. *)
Fixpoint add_xy (k : nat) (instances : list (gmap string cell))
    (x_mesh y_mesh : list (list float)) : Res (list (gmap string cell)) :=
  match instances with
  | [] => Ok []
  | inst :: rest =>
      match x_mesh !! k with
      | None => Raise (Exn IndexError ("index " +:+ pretty k +:+ " is out of bounds for axis 0"))
      | Some xrow =>
          let inst := <[ "x" := CArr xrow ]> inst in
          match y_mesh !! k with
          | None => Raise (Exn IndexError ("index " +:+ pretty k +:+ " is out of bounds for axis 0"))
          | Some yrow =>
              let inst := <[ "y" := CArr yrow ]> inst in
              rest <- add_xy (S k) rest x_mesh y_mesh ;;
              Ok (inst :: rest)
          end
      end
  end.

Definition make_table (rasters : list Dataset) : Res (list (gmap string cell)) :=
  match rasters with
  | [] => Raise (Exn IndexError "list index out of range")
  | r0 :: _ =>
      let geotransform := GeoTransform r0 in
      let cols := RasterXSize r0 in
      let rows := RasterYSize r0 in
      let xres := pixel_width geotransform in
      let yres := pixel_height geotransform in
      let topleft_x := origin_x geotransform in
      let topleft_y := origin_y geotransform in
      let instances := replicate (Z.to_nat (cols * rows)) (∅ : gmap string cell) in
      res <- raster_loop rasters instances None None ;;
      let instances := fst (fst res) in
      half <- float_div_int xres 2 ;;
      let x_start := fadd topleft_x half in
      span <- float_mul_int xres cols ;;
      let x_end := fadd x_start span in
      half <- float_div_int yres 2 ;;
      let y_start := fsub topleft_y half in
      span <- float_mul_int yres rows ;;
      let y_end := fsub y_start span in
      x_coords <- linspace x_start x_end cols ;;
      y_coords <- linspace y_start y_end rows ;;
      let mesh := meshgrid x_coords y_coords in
      add_xy 0 instances (fst mesh) (snd mesh)
  end.

(** ** [rasters_to_table] *)

(** [[load(f) for f in filenames]] with what the calls printed. *)
Fixpoint load_all (w : World) (filenames : list string)
  : list string * Res (list (option Dataset)) :=
  match filenames with
  | [] => ([], Ok [])
  | f :: rest =>
      match load w f None with
      | (out, Raise e) => (out, Raise e)
      | (out, Ok h) =>
          let r := load_all w rest in
          ((out ++ fst r)%list, hs <- snd r ;; Ok (h :: hs))
      end
  end.

(** [r.GetGeoTransform(), r.GetProjection()] for every raster; [None]
    has neither method. *)
Fixpoint georeferences (handles : list (option Dataset))
  : Res (list (Dataset * (geotransform * string))) :=
  match handles with
  | [] => Ok []
  | None :: _ =>
      Raise (Exn AttributeError "'NoneType' object has no attribute 'GetGeoTransform'")
  | Some r :: rest =>
      ps <- georeferences rest ;;
      Ok ((r, (GeoTransform r, Projection r)) :: ps)
  end.

(** [==] on geotransform tuples: item by item, as floats. *)
Definition geotransform_eqb (g h : geotransform) : bool :=
  let eq a b := py_eq (NFloat a) (NFloat b) in
  eq (origin_x g) (origin_x h) && eq (pixel_width g) (pixel_width h)
  && eq (row_rotation g) (row_rotation h) && eq (origin_y g) (origin_y h)
  && eq (column_rotation g) (column_rotation h) && eq (pixel_height g) (pixel_height h).

(** The call of the global [resample_and_reproject]. *)
Definition call_resample (w : World) (rasters : list Dataset) : Res (list Dataset) :=
  match resample_global w with
  | None => Raise (Exn NameError "name 'resample_and_reproject' is not defined")
  | Some resample_and_reproject => resample_and_reproject rasters
  end.

Definition rasters_to_table (w : World) (filenames : list string)
  : list string * Res (list (gmap string cell)) :=
  let loaded := load_all w filenames in
  (fst loaded,
   handles <- snd loaded ;;
   refs <- georeferences handles ;;
   let rasters := map fst refs in
   (if Nat.eqb (length refs) 0
    then Raise (Exn ValueError "not enough values to unpack (expected 2, got 0)")
    else Ok tt) ;;;
   let geotransforms := map (fun p => fst (snd p)) refs in
   let projections := map (fun p => snd (snd p)) refs in
   same_grid <- all_equal geotransform_eqb geotransforms ;;
   same_proj <- (if same_grid then all_equal String.eqb projections else Ok true) ;;
   rasters <- (if negb same_grid || negb same_proj
               then call_resample w rasters else Ok rasters) ;;
   make_table rasters).

(** ** What a successful load amounts to

    [sibling_path filename ext] is the path the loader derives by
    replacing the last dot-separated token; [Loaded w filename ds]
    lists, in the order of the source, every step that has to go well
    for [load_r_raster] to return [ds]. *)

Definition sibling_path (filename ext : string) : string :=
  let tokens := split extsep filename in
  join extsep (<[ Nat.pred (length tokens) := ext ]> tokens).

Inductive Loaded (w : World) (filename : string) : Dataset -> Prop :=
  | Loaded_intro cfg binstring datatype byteorder dt bo values
      ncols nrows xmax xmin ymax ymin xres yres minval maxval nodatavalue
      arr gdaltype proj4 :
      ini_files w (sibling_path filename "grd") = IniParsed cfg ->
      bin_files w (sibling_path filename "gri") = Some binstring ->
      config_get cfg "data" "datatype" = Ok datatype ->
      config_get cfg "data" "byteorder" = Ok byteorder ->
      DATATYPES !! datatype = Some dt ->
      BYTEORDER !! byteorder = Some bo ->
      unpack (Format bo (Z.of_nat (length binstring) / calcsize dt) dt) binstring
        = Ok values ->
      config_getint w cfg "georeference" "ncols" = Ok ncols ->
      config_getint w cfg "georeference" "nrows" = Ok nrows ->
      config_getfloat w cfg "georeference" "xmax" = Ok xmax ->
      config_getfloat w cfg "georeference" "xmin" = Ok xmin ->
      config_getfloat w cfg "georeference" "ymax" = Ok ymax ->
      config_getfloat w cfg "georeference" "ymin" = Ok ymin ->
      float_div_int (fsub xmax xmin) ncols = Ok xres ->
      float_div_int (fsub ymax ymin) nrows = Ok yres ->
      config_getfloat w cfg "data" "minvalue" = Ok minval ->
      config_getfloat w cfg "data" "maxvalue" = Ok maxval ->
      config_getfloat w cfg "data" "nodatavalue" = Ok nodatavalue ->
      reshape (np_array (map (keep_or_nodata minval maxval nodatavalue) values))
        nrows ncols = Ok arr ->
      GDALTYPES !! datatype = Some gdaltype ->
      1 <= ncols -> 1 <= nrows ->
      config_get cfg "georeference" "projection" = Ok proj4 ->
      Loaded w filename
        {| description := sibling_path filename "tif";
           RasterXSize := ncols;
           RasterYSize := nrows;
           GeoTransform := GT xmin xres fzero ymax fzero yres;
           Projection := proj4_to_wkt w proj4;
           bands := [ {| band_description := "";
                         band_type := gdaltype;
                         band_array := map (map (gdal_convert gdaltype)) arr;
                         band_nodata := Some nodatavalue |} ] |}.

(** The rasters of a list share one georeference when each equals the
    first in geotransform and projection. *)
Definition same_georeference (r r' : Dataset) : bool :=
  geotransform_eqb (GeoTransform r') (GeoTransform r)
  && String.eqb (Projection r') (Projection r).

Definition all_identical (rasters : list Dataset) : bool :=
  match rasters with
  | [] => true
  | r0 :: rest => forallb (same_georeference r0) rest
  end.

(** The cells of the first band of a raster, in row-major order. *)
Definition first_band_values (r : Dataset) : list num :=
  match bands r with
  | band :: _ => flatten (band_array band)
  | [] => []
  end.

(** A raster of a single band, without a band description, whose cells
    fill a grid of [n] cells. *)
Definition plain_raster (n : nat) (r : Dataset) : Prop :=
  exists band,
    bands r = [band] /\ band_description band = ""
    /\ length (flatten (band_array band)) = n.

(** ** Sample worlds and rasters *)

Module Sample.

Definition digit (c : ascii) : option Z :=
  let n := Z.of_N (N_of_ascii c) in
  if (48 <=? n) && (n <=? 57) then Some (n - 48) else None.

Fixpoint digits (acc : Z) (s : string) : option Z :=
  match s with
  | EmptyString => Some acc
  | String c rest =>
      match digit c with
      | Some d => digits (10 * acc + d) rest
      | None => None
      end
  end.

(** Decimal integers with an optional minus sign. *)
Definition parse_int (s : string) : option Z :=
  match s with
  | EmptyString => None
  | String "-" (String c rest) => Z.opp <$> digits 0 (String c rest)
  | _ => digits 0 s
  end.

(** Floats written as decimal integers. *)
Definition parse_float (s : string) : option float := float_lit <$> parse_int s.

(** A sidecar for a grid with x in [0, 4] and y in [0, 3]. *)
Definition sidecar (datatype byteorder minvalue maxvalue nodatavalue ncols nrows : string)
  : gmap string (gmap string string) :=
  {[ "data" := {[ "datatype" := datatype; "byteorder" := byteorder;
                  "minvalue" := minvalue; "maxvalue" := maxvalue;
                  "nodatavalue" := nodatavalue ]};
     "georeference" := {[ "ncols" := ncols; "nrows" := nrows;
                          "xmin" := "0"; "xmax" := "4";
                          "ymin" := "0"; "ymax" := "3";
                          "projection" := "+proj=longlat" ]} ]}.

(** A world that holds the pair [a.grd], [a.gri] and nothing else. *)
Definition world (cfg : gmap string (gmap string string)) (payload : list byte) : World :=
  {| py_int := parse_int;
     py_float := parse_float;
     ini_files := fun p => if String.eqb p "a.grd" then IniParsed cfg else IniUnreadable;
     bin_files := fun p => if String.eqb p "a.gri" then Some payload else None;
     proj4_to_wkt := fun s => s;
     gdal_Open := fun p _ => Raise (Exn RuntimeError p);
     resample_global := None |}.

Definition band (d : string) (a : list (list num)) : Band :=
  {| band_description := d; band_type := GDT_Int32;
     band_array := a; band_nodata := None |}.

(** A raster with origin (0, 10), xres 1 and yres -1. *)
Definition raster (path : string) (cols rows : Z) (bs : list Band) : Dataset :=
  {| description := path; RasterXSize := cols; RasterYSize := rows;
     GeoTransform := GT fzero (float_lit 1) fzero (float_lit 10) fzero (float_lit (-1));
     Projection := "+proj=longlat"; bands := bs |}.

(** A sidecar that declares the range [0, 10] and the nodata value
    -9999, and a payload of the two 16-bit values 5 and 20. *)
Definition range_cfg : gmap string (gmap string string) :=
  sidecar "INT2S" "little" "0" "10" "-9999" "2" "1".

Definition range_payload : list byte := [x05; x00; x14; x00]%byte.

(** A stand-in for the resampling step: every raster takes the
    geotransform and the projection of the first. *)
Definition align_to_first (rasters : list Dataset) : Res (list Dataset) :=
  match rasters with
  | [] => Ok []
  | r0 :: _ =>
      Ok (map (fun r => SetProjection (SetGeoTransform r (GeoTransform r0)) (Projection r0))
              rasters)
  end.

(** A world whose [gdal.Open] knows two one-cell rasters, the second
    shifted by one unit, and that binds [resample_and_reproject]. *)
Definition shifted (path : string) (bs : list Band) : Dataset :=
  {| description := path; RasterXSize := 1; RasterYSize := 1;
     GeoTransform := GT (float_lit 1) (float_lit 1) fzero (float_lit 10) fzero (float_lit (-1));
     Projection := "+proj=longlat"; bands := bs |}.

Definition gdal_world (resample : option (list Dataset -> Res (list Dataset))) : World :=
  {| py_int := parse_int;
     py_float := parse_float;
     ini_files := fun _ => IniUnreadable;
     bin_files := fun _ => None;
     proj4_to_wkt := fun s => s;
     gdal_Open := fun p _ =>
       if String.eqb p "bio1.tif" then Ok (raster p 1 1 [band "" [[NInt 7]]])
       else if String.eqb p "bio2.tif" then Ok (shifted p [band "" [[NInt 8]]])
       else Raise (Exn RuntimeError p);
     resample_global := resample |}.

End Sample.

(** * Properties *)

(** ** The result monad *)

Lemma bind_Ok {A B} (m : Res A) (k : A -> Res B) (b : B) :
  bind m k = Ok b <-> exists a, m = Ok a /\ k a = Ok b.
Proof.
  destruct m as [a|e]; simpl; split.
  - intros H. exists a. split; [reflexivity | exact H].
  - intros (a' & Ha & Hk). injection Ha as ->. exact Hk.
  - discriminate.
  - intros (a' & Ha & _). discriminate Ha.
Qed.

Lemma raised_or_Ok {A} (m : Res A) : raised m \/ exists a, m = Ok a.
Proof. destruct m as [a|e]; [right | left]; eexists; reflexivity. Qed.

Lemma raised_not_Ok {A} (m : Res A) : (forall a, m <> Ok a) -> raised m.
Proof.
  intros H. destruct (raised_or_Ok m) as [|[a Ha]]; [assumption|].
  destruct (H a Ha).
Qed.

(** Peel the binds of a computation known to return. *)
Ltac peel H :=
  repeat match type of H with
         | bind ?m _ = Ok _ =>
             let a := fresh "v" in
             let E := fresh "E" in
             destruct m as [a|] eqn:E; cbn [bind] in H; [|discriminate H]
         end.

(** ** Paths *)

Lemma split_nonempty sep s : split sep s <> [].
Proof.
  destruct s as [|c s]; simpl; [discriminate|].
  destruct (Ascii.eqb c sep); [discriminate|].
  destruct (split sep s); discriminate.
Qed.

Lemma set_last_Ok tokens v :
  tokens <> [] -> set_last tokens v = Ok (<[ Nat.pred (length tokens) := v ]> tokens).
Proof. destruct tokens; [congruence | reflexivity]. Qed.

(** ** Arrays *)

Lemma chunks_length {A} n k (l : list A) : length (chunks n k l) = n.
Proof. revert l. induction n as [|n IH]; intros l; simpl; [|rewrite IH]; reflexivity. Qed.

Lemma chunks_rows {A} n k (l : list A) :
  length l = (n * k)%nat -> Forall (fun row => length row = k) (chunks n k l).
Proof.
  revert l. induction n as [|n IH]; intros l Hl; simpl; constructor.
  - rewrite length_take. simpl in Hl. lia.
  - apply IH. rewrite length_drop. simpl in Hl. lia.
Qed.

Lemma chunks_cells {A} (P : A -> Prop) n k (l : list A) :
  Forall P l -> Forall (Forall P) (chunks n k l).
Proof.
  revert l. induction n as [|n IH]; intros l Hl; simpl; constructor.
  - by apply Forall_take.
  - apply IH. by apply Forall_drop.
Qed.

Lemma chunks_concat {A} n k (l : list A) :
  length l = (n * k)%nat -> concat (chunks n k l) = l.
Proof.
  revert l. induction n as [|n IH]; intros l Hl; simpl.
  - simpl in Hl. by destruct l.
  - rewrite IH; [apply take_drop|]. rewrite length_drop. simpl in Hl. lia.
Qed.

(** A reshape to positive dimensions succeeds exactly on an array of
    [r * c] items, and cuts it into [r] rows of [c]. *)
Lemma reshape_positive arr r c a :
  1 <= r -> 1 <= c ->
  reshape arr r c = Ok a ->
  Z.of_nat (length arr) = r * c
  /\ a = chunks (Z.to_nat r) (Z.to_nat c) arr.
Proof.
  intros Hr Hc. unfold reshape.
  repeat match goal with
         | |- context [?x <? ?y] => destruct (Z.ltb_spec x y); [lia|]
         | |- context [?x =? -1] => destruct (Z.eqb_spec x (-1)); [lia|]
         end.
  simpl. destruct (Z.eqb_spec (r * c) (Z.of_nat (length arr))); [|discriminate].
  intros [= <-]. split; [lia | reflexivity].
Qed.

Lemma reshape_shape arr r c a :
  1 <= r -> 1 <= c ->
  reshape arr r c = Ok a ->
  length a = Z.to_nat r /\ Forall (fun row => length row = Z.to_nat c) a.
Proof.
  intros Hr Hc H. destruct (reshape_positive _ _ _ _ Hr Hc H) as [Hn ->].
  split; [apply chunks_length | apply chunks_rows; nia].
Qed.

Lemma overlay_row_exact new old : length new = length old -> overlay_row new old = new.
Proof.
  intros H. unfold overlay_row. rewrite H, drop_all. apply app_nil_r.
Qed.

Lemma overlay_exact new old :
  Forall2 (fun n o => length n = length o) new old -> overlay new old = new.
Proof.
  induction 1 as [|n o ns os Hno _ IH]; simpl; [reflexivity|].
  by rewrite overlay_row_exact, IH.
Qed.

Lemma overlay_zeros a r c z :
  length a = r -> Forall (fun row => length row = c) a ->
  overlay a (replicate r (replicate c z)) = a.
Proof.
  intros <- Hrows. apply overlay_exact.
  induction Hrows as [|row rows Hrow _ IH]; simpl; constructor; [|exact IH].
  by rewrite length_replicate.
Qed.

Lemma converted_rows t (a : list (list num)) c :
  Forall (fun row => length row = c) a ->
  Forall (fun row => length row = c) (map (map (gdal_convert t)) a).
Proof.
  intros H. apply Forall_fmap. eapply Forall_impl; [exact H|].
  intros row Hrow. simpl. by rewrite length_map.
Qed.

Lemma fits_exact a r c :
  length a = Z.to_nat r -> Forall (fun row => length row = Z.to_nat c) a ->
  1 <= r -> 1 <= c -> fits c r a = true.
Proof.
  intros Hlen Hrows Hr Hc. unfold fits. apply andb_true_iff. split.
  - apply Z.leb_le. lia.
  - apply forallb_forall. intros row Hin.
    rewrite Forall_forall in Hrows. apply list_elem_of_In in Hin.
    apply Z.leb_le. rewrite (Hrows row Hin). lia.
Qed.

(** ** The loader, step by step *)

Lemma dict_get_Ok {V} (d : gmap string V) key v :
  dict_get d key = Ok v <-> d !! key = Some v.
Proof.
  unfold dict_get. destruct (d !! key); split; intros H; congruence.
Qed.

Lemma config_read_Ok w path cfg files :
  config_read w path = Ok (cfg, files) -> length files <> 0%nat ->
  ini_files w path = IniParsed cfg.
Proof.
  unfold config_read. destruct (ini_files w path); intros [= <- <-] Hlen;
    [destruct Hlen; reflexivity | reflexivity].
Qed.

Lemma open_rb_Ok w path content :
  open_rb w path = Ok content <-> bin_files w path = Some content.
Proof.
  unfold open_rb. destruct (bin_files w path); split; intros H; congruence.
Qed.

Lemma driver_Create_Ok path xsize ysize t ds :
  driver_Create path xsize ysize t = Ok ds ->
  1 <= xsize /\ 1 <= ysize
  /\ ds = {| description := path; RasterXSize := xsize; RasterYSize := ysize;
             GeoTransform := GT fzero (float_lit 1) fzero fzero fzero (float_lit 1);
             Projection := "";
             bands := [ {| band_description := ""; band_type := t;
                           band_array := replicate (Z.to_nat ysize)
                                           (replicate (Z.to_nat xsize) (zero_of t));
                           band_nodata := None |} ] |}.
Proof.
  unfold driver_Create.
  destruct (Z.ltb_spec xsize 1); [discriminate|].
  destruct (Z.ltb_spec ysize 1); [discriminate|].
  simpl. intros [= <-]. repeat split; lia.
Qed.

Lemma insert_last_nonempty (tokens : list string) v :
  tokens <> [] -> <[ Nat.pred (length tokens) := v ]> tokens <> [].
Proof. destruct tokens; [congruence | destruct tokens; discriminate]. Qed.

Theorem load_r_raster_Loaded w filename ds :
  load_r_raster w filename = Ok ds -> Loaded w filename ds.
Proof.
  unfold load_r_raster.
  pose proof (split_nonempty extsep filename) as Hne.
  rewrite (set_last_Ok _ "grd") by exact Hne. cbn [bind].
  rewrite (set_last_Ok _ "gri") by (by apply insert_last_nonempty). cbn [bind].
  rewrite length_insert, list_insert_insert_eq.
  fold (sibling_path filename "grd") (sibling_path filename "gri").
  intros H. peel H.
  destruct v as [cfg files]; simpl in *.
  destruct (length files) eqn:Hfiles; [discriminate E0|].
  apply config_read_Ok in E; [|lia].
  apply open_rb_Ok in E1. apply dict_get_Ok in E4, E5, E20.
  rewrite set_last_Ok in E19 by (by apply insert_last_nonempty).
  rewrite length_insert, list_insert_insert_eq in E19.
  injection E19 as <-. fold (sibling_path filename "tif") in E21.
  apply driver_Create_Ok in E21 as (Hc & Hr & ->).
  destruct (reshape_shape _ _ _ _ Hr Hc E18) as [Hlen Hrows].
  unfold WriteArray in E23. cbn in E23.
  rewrite (fits_exact _ _ _ Hlen Hrows Hr Hc) in E23.
  injection E23 as <-. injection H as <-.
  unfold SetProjection, SetNoDataValue, update_band, SetGeoTransform; simpl.
  rewrite overlay_zeros by (rewrite ?length_map; first [assumption | by apply converted_rows]).
  by eapply Loaded_intro.
Qed.

Theorem Loaded_load_r_raster w filename ds :
  Loaded w filename ds -> load_r_raster w filename = Ok ds.
Proof.
  intros [cfg binstring datatype byteorder dt bo values ncols nrows
          xmax xmin ymax ymin xres yres minval maxval nodatavalue arr gdaltype proj4
          Hini Hbin Hdt Hbo Hfmt Hord Hun Hnc Hnr Hxmax Hxmin Hymax Hymin Hxres Hyres
          Hmin Hmax Hnodata Harr Hgdal Hc Hr Hproj].
  unfold load_r_raster.
  pose proof (split_nonempty extsep filename) as Hne.
  rewrite (set_last_Ok _ "grd") by exact Hne. cbn [bind].
  rewrite (set_last_Ok _ "gri") by (by apply insert_last_nonempty). cbn [bind].
  rewrite length_insert, list_insert_insert_eq.
  fold (sibling_path filename "grd") (sibling_path filename "gri").
  unfold config_read. rewrite Hini. cbn [bind fst snd length Nat.eqb].
  apply open_rb_Ok in Hbin. rewrite Hbin. cbn [bind].
  rewrite Hdt, Hbo. cbn [bind].
  apply dict_get_Ok in Hfmt, Hord, Hgdal. rewrite Hfmt, Hord. cbn [bind].
  rewrite Hun. cbn [bind].
  rewrite Hnc, Hnr, Hxmax, Hxmin, Hymax, Hymin. cbn [bind].
  rewrite Hxres, Hyres. cbn [bind].
  rewrite Hmin, Hmax, Hnodata. cbn [bind].
  rewrite Harr. cbn [bind].
  rewrite set_last_Ok by (by apply insert_last_nonempty). cbn [bind].
  rewrite length_insert, list_insert_insert_eq.
  fold (sibling_path filename "tif").
  rewrite Hgdal. cbn [bind].
  destruct (reshape_shape _ _ _ _ Hr Hc Harr) as [Hlen Hrows].
  unfold driver_Create.
  destruct (Z.ltb_spec ncols 1); [lia|]. destruct (Z.ltb_spec nrows 1); [lia|].
  cbn [orb bind]. unfold WriteArray. simpl.
  rewrite (fits_exact _ _ _ Hlen Hrows Hr Hc). cbn [bind].
  rewrite Hproj. cbn [bind].
  unfold SetProjection, SetNoDataValue, update_band, SetGeoTransform; simpl.
  rewrite overlay_zeros by (rewrite ?length_map; first [assumption | by apply converted_rows]). reflexivity.
Qed.

(** ** Order on numbers *)

Lemma ext_leb_trans a b c :
  ext_leb a b = true -> ext_leb b c = true -> ext_leb a c = true.
Proof.
  destruct a as [|p|], b as [|q|], c as [|r|]; simpl; try congruence.
  rewrite !Qle_bool_iff. apply Qle_trans.
Qed.

(** No number is at most [lo] and at least [hi] when [lo < hi]. *)
Lemma between_inverted_bounds lo hi x :
  py_lt lo hi = true -> py_le x lo && py_ge x hi = false.
Proof.
  unfold py_lt, py_ge, py_le. intros Hlt.
  destruct (num_value lo) as [b|]; [|discriminate Hlt].
  destruct (num_value hi) as [c|]; [|discriminate Hlt].
  destruct (num_value x) as [a|]; [|reflexivity].
  destruct (ext_leb a b) eqn:Hab; [|reflexivity].
  destruct (ext_leb c a) eqn:Hca; [|reflexivity].
  rewrite (ext_leb_trans _ _ _ Hca Hab) in Hlt. discriminate Hlt.
Qed.

Lemma keep_or_nodata_inverted minval maxval nodatavalue x :
  py_lt (NFloat minval) (NFloat maxval) = true ->
  keep_or_nodata minval maxval nodatavalue x = NFloat nodatavalue.
Proof.
  intros Hlt. unfold keep_or_nodata.
  by rewrite (between_inverted_bounds _ _ x Hlt).
Qed.

Lemma map_as_float_id v (l : list num) :
  Forall (eq (NFloat v)) l -> map (fun x => NFloat (as_float x)) l = l.
Proof.
  induction 1 as [|y l <- _ IH]; simpl; [reflexivity|]. by rewrite IH.
Qed.

Lemma np_array_floats v (l : list num) :
  Forall (eq (NFloat v)) l -> Forall (eq (NFloat v)) (np_array l).
Proof.
  intros Hl. assert (np_array l = l) as ->; [|assumption].
  unfold np_array. destruct l as [|x l]; [reflexivity|].
  pose proof (map_as_float_id _ _ Hl) as Hmap.
  inversion Hl as [|? ? <- Hl']; subst. simpl in *. exact Hmap.
Qed.

Lemma np_array_length l : length (np_array l) = length l.
Proof.
  unfold np_array.
  destruct (existsb is_float l); [by rewrite length_map|].
  destruct (existsb is_int l); [by rewrite length_map | reflexivity].
Qed.

Lemma float_of_int_lit n f : float_of_int n = Ok f -> f = float_lit n.
Proof.
  unfold float_of_int, float_lit.
  destruct (binary_normalize prec emax n 0 false); congruence.
Qed.

Lemma float_div_int_Ok a n r :
  float_div_int a n = Ok r -> r = fdiv a (float_lit n).
Proof.
  unfold float_div_int. intros H. apply bind_Ok in H as (b & Hb & H).
  apply float_of_int_lit in Hb as ->. unfold float_truediv in H.
  destruct (is_zero (float_lit n)); congruence.
Qed.

Lemma unpack_Ok fmt buffer values :
  unpack fmt buffer = Ok values ->
  Z.of_nat (length buffer) = fmt_count fmt * calcsize (fmt_item fmt)
  /\ length values = Z.to_nat (fmt_count fmt).
Proof.
  unfold unpack.
  destruct (Z.eqb_spec (Z.of_nat (length buffer)) (fmt_count fmt * calcsize (fmt_item fmt)));
    [|discriminate].
  intros [= <-]. split; [assumption|]. by rewrite length_map, chunks_length.
Qed.

Lemma calcsize_pos c : 0 < calcsize c.
Proof. destruct c; reflexivity. Qed.

(** Whatever the sidecar holds under a key is all the loader reads
    there. *)
Ltac same_entry H1 H2 :=
  rewrite H1 in H2; injection H2 as <-.

(** ** The claims on the custom-format loader *)

(** C6: for a file pair whose sidecar declares ncols, nrows, xmin,
    xmax, ymin, ymax and a nodata value, the raster that
    [load_r_raster] returns has grid dimensions (nrows, ncols), the
    geotransform (xmin, (xmax-xmin)/ncols, 0, ymax, 0,
    (ymax-ymin)/nrows), and a band 1 of nrows rows of ncols cells whose
    nodata value is the declared sentinel. *)
Theorem load_r_raster_georeference
    w filename cfg ncols nrows xmin xmax ymin ymax nodatavalue ds :
  ini_files w (sibling_path filename "grd") = IniParsed cfg ->
  config_getint w cfg "georeference" "ncols" = Ok ncols ->
  config_getint w cfg "georeference" "nrows" = Ok nrows ->
  config_getfloat w cfg "georeference" "xmin" = Ok xmin ->
  config_getfloat w cfg "georeference" "xmax" = Ok xmax ->
  config_getfloat w cfg "georeference" "ymin" = Ok ymin ->
  config_getfloat w cfg "georeference" "ymax" = Ok ymax ->
  config_getfloat w cfg "data" "nodatavalue" = Ok nodatavalue ->
  load_r_raster w filename = Ok ds ->
  (RasterYSize ds, RasterXSize ds) = (nrows, ncols)
  /\ GeoTransform ds
     = GT xmin (fdiv (fsub xmax xmin) (float_lit ncols)) fzero
          ymax fzero (fdiv (fsub ymax ymin) (float_lit nrows))
  /\ exists band,
       GetRasterBand ds 1 = Ok band
       /\ band_nodata band = Some nodatavalue
       /\ length (band_array band) = Z.to_nat nrows
       /\ Forall (fun row => length row = Z.to_nat ncols) (band_array band).
Proof.
  intros Hini Hnc Hnr Hxmin Hxmax Hymin Hymax Hnodata Hload.
  apply load_r_raster_Loaded in Hload.
  destruct Hload as [cfg' binstring datatype byteorder dt bo values ncols' nrows'
          xmax' xmin' ymax' ymin' xres yres minval maxval nodatavalue' arr gdaltype proj4
          Hini' _ _ _ _ _ _ Hnc' Hnr' Hxmax' Hxmin' Hymax' Hymin' Hxres Hyres
          _ _ Hnodata' Harr _ Hc Hr _].
  rewrite Hini in Hini'. injection Hini' as <-.
  same_entry Hnc Hnc'. same_entry Hnr Hnr'.
  same_entry Hxmin Hxmin'. same_entry Hxmax Hxmax'.
  same_entry Hymin Hymin'. same_entry Hymax Hymax'.
  same_entry Hnodata Hnodata'.
  apply float_div_int_Ok in Hxres as ->, Hyres as ->.
  destruct (reshape_shape _ _ _ _ Hr Hc Harr) as [Hlen Hrows].
  split; [reflexivity|]. split; [reflexivity|].
  eexists. split; [reflexivity|]. cbn [band_nodata band_array].
  split; [reflexivity|]. split; [by rewrite length_map | by apply converted_rows].
Qed.

Lemma load_r_raster_georeference_witness :
  let cfg := Sample.sidecar "INT2S" "little" "0" "10" "-9999" "2" "1" in
  let w := Sample.world cfg [x05; x00; x14; x00]%byte in
  exists ds,
    load_r_raster w "a.gri" = Ok ds
    /\ (RasterYSize ds, RasterXSize ds) = (1, 2)
    /\ GeoTransform ds
       = GT (float_lit 0) (fdiv (fsub (float_lit 4) (float_lit 0)) (float_lit 2)) fzero
            (float_lit 3) fzero (fdiv (fsub (float_lit 3) (float_lit 0)) (float_lit 1))
    /\ exists band,
         GetRasterBand ds 1 = Ok band
         /\ band_nodata band = Some (float_lit (-9999))
         /\ length (band_array band) = Z.to_nat 1
         /\ Forall (fun row => length row = Z.to_nat 2) (band_array band).
Proof.
  intros cfg w.
  destruct (load_r_raster w "a.gri") as [ds|e] eqn:Hload;
    [|vm_compute in Hload; discriminate Hload].
  exists ds. split; [reflexivity|].
  apply (load_r_raster_georeference w "a.gri" cfg 2 1
           (float_lit 0) (float_lit 4) (float_lit 0) (float_lit 3) (float_lit (-9999)) ds);
    solve [vm_compute; reflexivity | exact Hload].
Defined.

(** C7: the payload has to unpack into exactly nrows * ncols items for
    the load to succeed.  Whenever the byte length of the payload
    divided by the width of the datatype is not nrows * ncols (that
    is, the length is not nrows * ncols * width), [load_r_raster]
    raises and returns no raster. *)
Theorem load_r_raster_size_mismatch
    w filename cfg payload datatype dt ncols nrows :
  ini_files w (sibling_path filename "grd") = IniParsed cfg ->
  bin_files w (sibling_path filename "gri") = Some payload ->
  config_get cfg "data" "datatype" = Ok datatype ->
  DATATYPES !! datatype = Some dt ->
  config_getint w cfg "georeference" "ncols" = Ok ncols ->
  config_getint w cfg "georeference" "nrows" = Ok nrows ->
  Z.of_nat (length payload) <> nrows * ncols * calcsize dt ->
  raised (load_r_raster w filename).
Proof.
  intros Hini Hbin Hdt Hfmt Hnc Hnr Hsize.
  apply raised_not_Ok. intros ds Hload. apply Hsize.
  apply load_r_raster_Loaded in Hload.
  destruct Hload as [cfg' binstring datatype' byteorder dt' bo values ncols' nrows'
          xmax xmin ymax ymin xres yres minval maxval nodatavalue arr gdaltype proj4
          Hini' Hbin' Hdt' _ Hfmt' _ Hun Hnc' Hnr' _ _ _ _ _ _
          _ _ _ Harr _ Hc Hr _].
  rewrite Hini in Hini'. injection Hini' as <-.
  rewrite Hbin in Hbin'. injection Hbin' as <-.
  same_entry Hdt Hdt'. rewrite Hfmt in Hfmt'. injection Hfmt' as <-.
  same_entry Hnc Hnc'. same_entry Hnr Hnr'.
  apply unpack_Ok in Hun as [Hbytes Hitems]. simpl in Hbytes, Hitems.
  apply reshape_positive in Harr as [Hcells _]; [|assumption..].
  rewrite np_array_length, length_map, Hitems in Hcells.
  pose proof (calcsize_pos dt) as Hpos.
  assert (0 <= Z.of_nat (length payload) / calcsize dt)
    by (apply Z.div_pos; lia).
  rewrite Hbytes at 1. rewrite Z2Nat.id in Hcells by assumption. by rewrite Hcells.
Qed.

Lemma load_r_raster_size_mismatch_witness :
  let cfg := Sample.sidecar "INT2S" "little" "0" "10" "-9999" "2" "2" in
  let w := Sample.world cfg [x05; x00; x14; x00]%byte in
  Z.of_nat (length [x05; x00; x14; x00]%byte) <> 2 * 2 * calcsize fmt_h
  /\ raised (load_r_raster w "a.grd").
Proof.
  intros cfg w. split; [vm_compute; discriminate|].
  apply (load_r_raster_size_mismatch w "a.grd" cfg [x05; x00; x14; x00]%byte
           "INT2S" fmt_h 2 2);
    solve [vm_compute; reflexivity | vm_compute; discriminate].
Defined.

(** The claim C10 as it is written fails: a sidecar of datatype INT1U
    with the range [0, 10] and the nodata value -9999 loads as a band
    of bytes, which stores 0 where the array handed to it holds
    -9999.0; no cell equals the sentinel. *)
Lemma load_r_raster_all_nodata_counterexample :
  let cfg := Sample.sidecar "INT1U" "little" "0" "10" "-9999" "2" "1" in
  let w := Sample.world cfg [x05; x14]%byte in
  config_getfloat w cfg "data" "minvalue" = Ok (float_lit 0)
  /\ config_getfloat w cfg "data" "maxvalue" = Ok (float_lit 10)
  /\ config_getfloat w cfg "data" "nodatavalue" = Ok (float_lit (-9999))
  /\ py_lt (NFloat (float_lit 0)) (NFloat (float_lit 10)) = true
  /\ exists ds band,
       load_r_raster w "a.grd" = Ok ds
       /\ band ∈ bands ds
       /\ band_array band = [[NInt 0; NInt 0]]
       /\ ~ Forall (Forall (eq (NFloat (float_lit (-9999))))) (band_array band).
Proof.
  intros cfg w. repeat (split; [vm_compute; reflexivity|]).
  destruct (load_r_raster w "a.grd") as [ds|e] eqn:Hload;
    [|vm_compute in Hload; discriminate Hload].
  vm_compute in Hload. injection Hload as <-.
  eexists _, _. split; [reflexivity|]. split; [by apply list_elem_of_singleton|].
  split; [reflexivity|].
  cbn [band_array]. intros Hall. apply Forall_cons in Hall as [Hrow _].
  apply Forall_cons in Hrow as [Hcell _]. discriminate Hcell.
Qed.

(** C10, amended: when the sidecar declares minvalue < maxvalue, no
    value is at most minvalue and at least maxvalue, so the filter
    keeps nothing and every item of the array written to the band is
    the nodata sentinel: every cell of every band of the loaded raster
    is the sentinel converted to the pixel type of the band, whatever
    the payload holds.  In a band of doubles (datatype FLT8S) that is
    the sentinel itself. *)
Theorem load_r_raster_all_nodata
    w filename cfg minval maxval nodatavalue ds :
  ini_files w (sibling_path filename "grd") = IniParsed cfg ->
  config_getfloat w cfg "data" "minvalue" = Ok minval ->
  config_getfloat w cfg "data" "maxvalue" = Ok maxval ->
  config_getfloat w cfg "data" "nodatavalue" = Ok nodatavalue ->
  py_lt (NFloat minval) (NFloat maxval) = true ->
  load_r_raster w filename = Ok ds ->
  (forall x, py_le x (NFloat minval) && py_ge x (NFloat maxval) = false)
  /\ forall band, band ∈ bands ds ->
       Forall (Forall (eq (gdal_convert (band_type band) (NFloat nodatavalue))))
              (band_array band)
       /\ (band_type band = GDT_Float64 ->
           Forall (Forall (eq (NFloat nodatavalue))) (band_array band)).
Proof.
  intros Hini Hmin Hmax Hnodata Hlt Hload.
  split; [intros x; by apply between_inverted_bounds|].
  apply load_r_raster_Loaded in Hload.
  destruct Hload as [cfg' binstring datatype byteorder dt bo values ncols nrows
          xmax xmin ymax ymin xres yres minval' maxval' nodatavalue' arr gdaltype proj4
          Hini' _ _ _ _ _ _ _ _ _ _ _ _ _ _
          Hmin' Hmax' Hnodata' Harr _ Hc Hr _].
  rewrite Hini in Hini'. injection Hini' as <-.
  same_entry Hmin Hmin'. same_entry Hmax Hmax'. same_entry Hnodata Hnodata'.
  intros band Hband. apply list_elem_of_singleton in Hband as ->.
  cbn [band_array band_type].
  apply reshape_positive in Harr as [_ ->]; [|assumption..].
  assert (Forall (Forall (eq (NFloat nodatavalue)))
            (chunks (Z.to_nat nrows) (Z.to_nat ncols)
               (np_array (map (keep_or_nodata minval maxval nodatavalue) values))))
    as Hwritten.
  { apply chunks_cells. apply np_array_floats.
    apply Forall_forall. intros y Hy. apply list_elem_of_fmap in Hy as (x & -> & _).
    symmetry. by apply keep_or_nodata_inverted. }
  assert (Forall (Forall (eq (gdal_convert gdaltype (NFloat nodatavalue))))
            (map (map (gdal_convert gdaltype))
               (chunks (Z.to_nat nrows) (Z.to_nat ncols)
                  (np_array (map (keep_or_nodata minval maxval nodatavalue) values)))))
    as Hstored.
  { apply Forall_fmap. eapply Forall_impl; [exact Hwritten|].
    intros row Hrow. simpl. apply Forall_fmap. eapply Forall_impl; [exact Hrow|].
    intros cell <-. reflexivity. }
  split; [exact Hstored|]. intros ->. exact Hstored.
Qed.

Lemma load_r_raster_all_nodata_witness :
  let cfg := Sample.sidecar "FLT8S" "big" "0" "10" "-9999" "1" "1" in
  let w := Sample.world cfg [x3f; xf8; x00; x00; x00; x00; x00; x00]%byte in
  py_lt (NFloat (float_lit 0)) (NFloat (float_lit 10)) = true
  /\ exists ds,
       load_r_raster w "a.grd" = Ok ds
       /\ (forall x, py_le x (NFloat (float_lit 0)) && py_ge x (NFloat (float_lit 10)) = false)
       /\ forall band, band ∈ bands ds ->
            Forall (Forall (eq (gdal_convert (band_type band) (NFloat (float_lit (-9999))))))
                   (band_array band)
            /\ (band_type band = GDT_Float64 ->
                Forall (Forall (eq (NFloat (float_lit (-9999))))) (band_array band)).
Proof.
  intros cfg w. split; [vm_compute; reflexivity|].
  destruct (load_r_raster w "a.grd") as [ds|e] eqn:Hload;
    [|vm_compute in Hload; discriminate Hload].
  exists ds. split; [reflexivity|].
  apply (load_r_raster_all_nodata w "a.grd" cfg
           (float_lit 0) (float_lit 10) (float_lit (-9999)) ds);
    solve [vm_compute; reflexivity | exact Hload].
Defined.

(** C1: the claim asks that a value inside [minvalue, maxvalue] be
    stored unchanged.  The code does not: with the range [0, 10] the
    payload value 5, which lies inside, is stored as the nodata value
    -9999 (and so is 20, which lies outside). *)
Theorem load_r_raster_replaces_value_in_range :
  let w := Sample.world Sample.range_cfg Sample.range_payload in
  unpack (Format LittleEndian 2 fmt_h) Sample.range_payload = Ok [NInt 5; NInt 20]
  /\ py_le (NFloat (float_lit 0)) (NInt 5) && py_le (NInt 5) (NFloat (float_lit 10)) = true
  /\ keep_or_nodata (float_lit 0) (float_lit 10) (float_lit (-9999)) (NInt 5)
     = NFloat (float_lit (-9999))
  /\ exists ds band,
       load_r_raster w "a.grd" = Ok ds
       /\ GetRasterBand ds 1 = Ok band
       /\ band_array band = [[NInt (-9999); NInt (-9999)]].
Proof.
  intros w. repeat split; try (vm_compute; reflexivity).
  destruct (load_r_raster w "a.grd") as [ds|e] eqn:Hload;
    [|vm_compute in Hload; discriminate Hload].
  vm_compute in Hload. injection Hload as <-.
  eexists _, _. repeat split.
Qed.

(** C5: the round trip the claim asks for fails.  Two payloads, a
    little-endian INT2S one that packs 5 and 7 and a big-endian FLT8S
    one that packs 1.5, all inside the declared range [0, 10], load as
    rasters whose cells are the nodata value -9999 instead. *)
Theorem load_r_raster_round_trip_fails :
  let ints := [x05; x00; x07; x00]%byte in
  let w_ints := Sample.world (Sample.sidecar "INT2S" "little" "0" "10" "-9999" "2" "1") ints in
  let dbl := [x3f; xf8; x00; x00; x00; x00; x00; x00]%byte in
  let w_dbl := Sample.world (Sample.sidecar "FLT8S" "big" "0" "10" "-9999" "1" "1") dbl in
  let one_and_half := fdiv (float_lit 3) (float_lit 2) in
  (unpack (Format LittleEndian 2 fmt_h) ints = Ok [NInt 5; NInt 7]
   /\ exists ds band,
        load_r_raster w_ints "a.gri" = Ok ds
        /\ GetRasterBand ds 1 = Ok band
        /\ flatten (band_array band)
           = [NInt (-9999); NInt (-9999)])
  /\ (unpack (Format BigEndian 1 fmt_d) dbl = Ok [NFloat one_and_half]
      /\ py_le (NFloat (float_lit 0)) (NFloat one_and_half)
         && py_le (NFloat one_and_half) (NFloat (float_lit 10)) = true
      /\ exists ds band,
           load_r_raster w_dbl "a.gri" = Ok ds
           /\ GetRasterBand ds 1 = Ok band
           /\ flatten (band_array band) = [NFloat (float_lit (-9999))]).
Proof.
  intros ints w_ints dbl w_dbl one_and_half.
  split; [split|split; [|split]]; try (vm_compute; reflexivity).
  - destruct (load_r_raster w_ints "a.gri") as [ds|e] eqn:Hload;
      [|vm_compute in Hload; discriminate Hload].
    vm_compute in Hload. injection Hload as <-. eexists _, _. repeat split.
  - destruct (load_r_raster w_dbl "a.gri") as [ds|e] eqn:Hload;
      [|vm_compute in Hload; discriminate Hload].
    vm_compute in Hload. injection Hload as <-. eexists _, _. repeat split.
Qed.

(** An unreadable sidecar stops the load at the [raise] statement,
    which is handed a tuple. *)
Lemma load_r_raster_unreadable w filename :
  ini_files w (sibling_path filename "grd") = IniUnreadable ->
  load_r_raster w filename
  = Raise (Exn TypeError "exceptions must derive from BaseException").
Proof.
  intros Hini. unfold load_r_raster.
  pose proof (split_nonempty extsep filename) as Hne.
  rewrite (set_last_Ok _ "grd") by exact Hne. cbn [bind].
  rewrite (set_last_Ok _ "gri") by (by apply insert_last_nonempty). cbn [bind].
  fold (sibling_path filename "grd").
  unfold config_read. rewrite Hini. reflexivity.
Qed.

(** C8: with no readable [b.grd], [load_r_raster] raises and returns no
    raster, but what it raises is the interpreter's [TypeError] for a
    [raise] of a tuple; the [Exception] with the text that names the
    sidecar, which the claim asks for, is never raised. *)
Theorem load_r_raster_unreadable_sidecar_error :
  let w := Sample.world Sample.range_cfg Sample.range_payload in
  ini_files w (sibling_path "b.gri" "grd") = IniUnreadable
  /\ load_r_raster w "b.gri"
     = Raise (Exn TypeError "exceptions must derive from BaseException")
  /\ load_r_raster w "b.gri"
     <> Raise (Exn Exception ("could not read R raster file " +:+ sibling_path "b.gri" "grd")).
Proof.
  intros w.
  assert (ini_files w (sibling_path "b.gri" "grd") = IniUnreadable) as Hini
    by (vm_compute; reflexivity).
  split; [exact Hini|].
  rewrite (load_r_raster_unreadable w "b.gri" Hini).
  split; [reflexivity | discriminate].
Qed.

(** ** The generic loader *)

(** C9: when [load] does not resolve the raster type to the custom
    format, it calls [gdal.Open] on the file in read-only mode; the
    handle is returned as it is, and on a failure of the open no
    exception leaves [load]: a line is printed and the result is
    [None]. *)
Theorem load_generic_open w filename rastertype resolved :
  resolve_rastertype filename rastertype = Ok resolved ->
  resolved <> Some "r-raster" ->
  load w filename rastertype
  = match gdal_Open w filename GA_ReadOnly with
    | Ok ds => ([], Ok (Some ds))
    | Raise _ => (["could not open raster file " +:+ filename], Ok None)
    end.
Proof.
  intros Hres Hgeneric. unfold load. rewrite Hres.
  rewrite bool_decide_eq_false_2 by exact Hgeneric. reflexivity.
Qed.

Lemma load_generic_open_witness :
  let w := Sample.world Sample.range_cfg Sample.range_payload in
  resolve_rastertype "dem.tif" None = Ok None
  /\ None <> Some "r-raster"
  /\ load w "dem.tif" None = (["could not open raster file dem.tif"], Ok None).
Proof.
  intros w.
  assert (resolve_rastertype "dem.tif" None = Ok None) as Hres by reflexivity.
  assert (None <> Some "r-raster") as Hgeneric by discriminate.
  split; [exact Hres|]. split; [exact Hgeneric|].
  rewrite (load_generic_open w "dem.tif" None None Hres Hgeneric). reflexivity.
Defined.

(** The extension decides when no hint is given: anything but [gri] and
    [grd] takes the generic path. *)
Lemma resolve_rastertype_generic filename ext :
  get_last (split extsep filename) = Ok ext ->
  ext <> "gri" -> ext <> "grd" ->
  exists resolved,
    resolve_rastertype filename None = Ok resolved /\ resolved <> Some "r-raster".
Proof.
  intros Hext Hgri Hgrd. unfold resolve_rastertype. rewrite Hext. cbn [bind].
  apply String.eqb_neq in Hgri, Hgrd. rewrite Hgri, Hgrd. cbn [orb].
  destruct (String.eqb ext "bil"); eexists; (split; [reflexivity | discriminate]).
Qed.

(** ** The table builder *)







(** C2: the claim asks for rows * cols rows with scalar cell-centre
    coordinates.  On a 2 x 2 grid [make_table] returns no table: the
    coordinate loop raises [IndexError] at the third cell.  On the one
    grid shape it does return for, a single column, the origin (0, 10)
    with xres 1 and yres -1 gives each row [x] as a one-item array and
    the [y] values 10.5 and 12.5, where the claimed formula gives 9.5
    and 8.5. *)
Theorem make_table_coordinates_fail :
  let cells := [[NInt 1; NInt 2]; [NInt 3; NInt 4]] in
  let half := fdiv (float_lit 1) (float_lit 2) in
  make_table [Sample.raster "data/bio1.tif" 2 2 [Sample.band "" cells]]
  = Raise (Exn IndexError "index 2 is out of bounds for axis 0")
  /\ exists row0 row1,
       make_table [Sample.raster "data/bio1.tif" 1 2 [Sample.band "" [[NInt 1]; [NInt 2]]]]
       = Ok [row0; row1]
       /\ row0 !! "x" = Some (CArr [half])
       /\ row0 !! "y" = Some (CArr [fadd (float_lit 10) half])
       /\ row1 !! "y" = Some (CArr [fadd (float_lit 12) half])
       /\ fadd (fadd (float_lit 10) (fdiv (float_lit (-1)) (float_lit 2)))
               (fmul (float_lit 1) (float_lit (-1)))
          = fadd (float_lit 8) half.
Proof.
  intros cells half. split; [vm_compute; reflexivity|].
  destruct (make_table [Sample.raster "data/bio1.tif" 1 2 _]) as [table|e] eqn:Htable;
    [|vm_compute in Htable; discriminate Htable].
  vm_compute in Htable. injection Htable as <-.
  eexists _, _. split; [reflexivity|]. repeat split; vm_compute; reflexivity.
Qed.

(** C3: none of the three naming rules of the claim holds in the code.
    A single-band raster [data/bio1.tif] without a band description
    gets the empty key, not [bio1]; a band with the description [temp]
    stops the function with [UnboundLocalError] on [band_name]; a
    two-band raster without descriptions stops it with
    [UnboundLocalError] on [i]. *)
Theorem make_table_feature_names_fail :
  (exists row,
     make_table [Sample.raster "data/bio1.tif" 1 1 [Sample.band "" [[NInt 7]]]] = Ok [row]
     /\ row !! "" = Some (CNum (NInt 7))
     /\ row !! "bio1" = None)
  /\ make_table [Sample.raster "data/bio1.tif" 1 1 [Sample.band "temp" [[NInt 7]]]]
     = Raise (Exn UnboundLocalError "band_name")
  /\ make_table [Sample.raster "data/bio1.tif" 1 1
                   [Sample.band "" [[NInt 7]]; Sample.band "" [[NInt 8]]]]
     = Raise (Exn UnboundLocalError "i").
Proof.
  split; [|split; vm_compute; reflexivity].
  destruct (make_table [Sample.raster "data/bio1.tif" 1 1 _]) as [table|e] eqn:Htable;
    [|vm_compute in Htable; discriminate Htable].
  vm_compute in Htable. injection Htable as <-.
  eexists. split; [reflexivity|]. split; vm_compute; reflexivity.
Qed.

(** ** The pipeline *)

Lemma filter_length_all {A} (P : A -> Prop) `{!forall x, Decision (P x)} (l : list A) :
  Nat.eqb (length (filter P l)) (length l) = forallb (fun x => bool_decide (P x)) l.
Proof.
  induction l as [|x l IH]; [reflexivity|].
  rewrite filter_cons. simpl. destruct (decide (P x)) as [Hx|Hx].
  - rewrite (bool_decide_eq_true_2 _ Hx). simpl. exact IH.
  - rewrite (bool_decide_eq_false_2 _ Hx). simpl.
    pose proof (length_filter P l). apply Nat.eqb_neq. lia.
Qed.

(** [all_equal] holds when every later item equals the first. *)
Lemma all_equal_forallb {A} (eqb : A -> A -> bool) x0 rest :
  all_equal eqb (x0 :: rest) = Ok (forallb (fun x => eqb x x0) rest).
Proof.
  unfold all_equal. f_equal. simpl length. change (Nat.eqb (S ?a) (S ?b)) with (Nat.eqb a b).
  rewrite filter_length_all. induction rest as [|x rest IH]; [reflexivity|].
  simpl. rewrite IH. f_equal. by destruct (eqb x x0).
Qed.

Lemma forallb_over_map {A B} (f : B -> bool) (g : A -> B) (l : list A) :
  forallb f (map g l) = forallb (fun x => f (g x)) l.
Proof. induction l as [|x l IH]; [reflexivity|]. simpl. by rewrite IH. Qed.

Lemma georeferences_loaded rasters :
  georeferences (map Some rasters)
  = Ok (map (fun r => (r, (GeoTransform r, Projection r))) rasters).
Proof.
  induction rasters as [|r rasters IH]; [reflexivity|].
  simpl. by rewrite IH.
Qed.

Lemma all_identical_split r0 rest :
  all_identical (r0 :: rest)
  = forallb (fun r => geotransform_eqb (GeoTransform r) (GeoTransform r0)) rest
    && forallb (fun r => String.eqb (Projection r) (Projection r0)) rest.
Proof.
  simpl. induction rest as [|r rest IH]; [reflexivity|].
  simpl. rewrite IH. unfold same_georeference.
  destruct (geotransform_eqb _ _), (String.eqb _ _); simpl;
    rewrite ?andb_false_r; reflexivity.
Qed.

(** In a world that binds the name [resample_and_reproject] to a
    function, a mismatch of the (geotransform, projection) pairs hands
    the whole list of rasters to that function and its result to
    [make_table]; rasters that agree go to [make_table] unchanged. *)
Theorem rasters_to_table_resamples_on_mismatch
    w filenames out rasters resample_and_reproject :
  load_all w filenames = (out, Ok (map Some rasters)) ->
  rasters <> [] ->
  resample_global w = Some resample_and_reproject ->
  rasters_to_table w filenames
  = (out,
     if all_identical rasters then make_table rasters
     else aligned <- resample_and_reproject rasters ;; make_table aligned).
Proof.
  intros Hload Hne Hglobal. unfold rasters_to_table. rewrite Hload.
  cbn [fst snd bind]. f_equal.
  rewrite georeferences_loaded. cbn [bind].
  rewrite !length_map, !map_map. cbn [fst snd].
  rewrite map_id.
  destruct rasters as [|r0 rest]; [congruence|].
  cbn [length Nat.eqb bind map].
  rewrite (all_equal_forallb geotransform_eqb), (all_equal_forallb String.eqb).
  cbn [bind]. rewrite all_identical_split, !forallb_over_map.
  unfold call_resample. rewrite Hglobal.
  destruct (forallb _ rest); cbn [bind negb orb andb]; [|reflexivity].
  destruct (forallb _ rest); reflexivity.
Qed.

(** In the module as it stands nothing binds the name: the call is a
    [NameError] and [make_table] is not reached. *)
Lemma rasters_to_table_unbound_resample w filenames out rasters :
  load_all w filenames = (out, Ok (map Some rasters)) ->
  all_identical rasters = false ->
  resample_global w = None ->
  rasters_to_table w filenames
  = (out, Raise (Exn NameError "name 'resample_and_reproject' is not defined")).
Proof.
  intros Hload Hdiff Hglobal. unfold rasters_to_table. rewrite Hload.
  cbn [fst snd bind]. f_equal.
  rewrite georeferences_loaded. cbn [bind].
  rewrite !length_map, !map_map. cbn [fst snd].
  rewrite map_id.
  destruct rasters as [|r0 rest]; [discriminate Hdiff|].
  cbn [length Nat.eqb bind map].
  rewrite (all_equal_forallb geotransform_eqb), (all_equal_forallb String.eqb).
  cbn [bind]. rewrite all_identical_split, !forallb_over_map in *.
  unfold call_resample. rewrite Hglobal.
  destruct (forallb _ rest); cbn [bind negb orb andb] in *; [|reflexivity].
  destruct (forallb _ rest); [discriminate Hdiff | reflexivity].
Qed.

(** C4: the claim asks that rasters which differ in geotransform or
    projection be resampled onto one grid before they are flattened.
    [raster.py] calls [resample_and_reproject] for that, but neither
    defines nor imports the name: for two files whose rasters differ
    in origin the pipeline raises [NameError] at the call, nothing is
    resampled and [make_table] is not reached.  (A single raster, which
    agrees with itself, goes to [make_table] unchanged.) *)
Theorem rasters_to_table_mismatch_not_resampled :
  let w := Sample.gdal_world None in
  let bio1 := Sample.raster "bio1.tif" 1 1 [Sample.band "" [[NInt 7]]] in
  let bio2 := Sample.shifted "bio2.tif" [Sample.band "" [[NInt 8]]] in
  load_all w ["bio1.tif"; "bio2.tif"] = ([], Ok [Some bio1; Some bio2])
  /\ geotransform_eqb (GeoTransform bio2) (GeoTransform bio1) = false
  /\ rasters_to_table w ["bio1.tif"; "bio2.tif"]
     = ([], Raise (Exn NameError "name 'resample_and_reproject' is not defined"))
  /\ rasters_to_table w ["bio1.tif"] = ([], make_table [bio1]).
Proof.
  intros w bio1 bio2.
  split; [reflexivity|]. split; [vm_compute; reflexivity|].
  split; vm_compute; reflexivity.
Qed.

(** * Further properties of the module *)

(** ** [all_equal] *)

(** X1: [all_equal] raises [IndexError] on an empty sequence; on any
    other it returns, and the answer is [True] exactly when every item
    after the first equals the first. *)
Theorem all_equal_first_decides {A} (eqb : A -> A -> bool) :
  all_equal eqb [] = Raise (Exn IndexError "tuple index out of range")
  /\ forall x0 rest,
       exists b, all_equal eqb (x0 :: rest) = Ok b
                 /\ (b = true <-> Forall (fun x => eqb x x0 = true) rest).
Proof.
  split; [reflexivity|]. intros x0 rest.
  exists (forallb (fun x => eqb x x0) rest). split; [apply all_equal_forallb|].
  rewrite forallb_forall, Forall_forall.
  split; intros H x Hx; apply H; by apply list_elem_of_In.
Qed.

(** ** The paths the loader derives *)

Lemma concat_push sep c t ts :
  String.concat sep (String c t :: ts) = String c (String.concat sep (t :: ts)).
Proof. destruct ts; reflexivity. Qed.

Lemma join_split sep s : join sep (split sep s) = s.
Proof.
  unfold join. induction s as [|c s IH]; [reflexivity|].
  simpl split. destruct (split sep s) as [|t ts] eqn:Hs;
    [by destruct (split_nonempty sep s)|].
  destruct (Ascii.eqb_spec c sep) as [->|Hc].
  - change (String.concat (String sep "") ("" :: t :: ts))
      with (String sep (String.concat (String sep "") (t :: ts))).
    by rewrite IH.
  - by rewrite concat_push, IH.
Qed.

Lemma last_lookup_pred {A} (l : list A) x :
  last l = Some x -> l !! Nat.pred (length l) = Some x.
Proof. intros H. by rewrite <- last_lookup. Qed.

(** X2: a filename that already carries the extension asked for is its
    own sibling: for [a.grd] the sidecar path is [a.grd] itself (and
    for [a.gri] the payload path is [a.gri]). *)
Theorem sibling_path_same_extension filename ext :
  get_last (split extsep filename) = Ok ext ->
  sibling_path filename ext = filename.
Proof.
  unfold get_last, sibling_path. intros H.
  destruct (last (split extsep filename)) as [t|] eqn:Hlast; [|discriminate H].
  injection H as ->. apply last_lookup_pred in Hlast.
  rewrite list_insert_id by exact Hlast. apply join_split.
Qed.

Lemma sibling_path_same_extension_witness :
  get_last (split extsep "data/bio1.grd") = Ok "grd"
  /\ sibling_path "data/bio1.grd" "grd" = "data/bio1.grd".
Proof.
  assert (get_last (split extsep "data/bio1.grd") = Ok "grd") as H by reflexivity.
  split; [exact H|]. exact (sibling_path_same_extension "data/bio1.grd" "grd" H).
Defined.

Lemma insert_last_removelast (tokens : list string) v :
  tokens <> [] -> <[ Nat.pred (length tokens) := v ]> tokens = (removelast tokens ++ [v])%list.
Proof.
  induction tokens as [|t ts IH]; [congruence|]. intros _.
  destruct ts as [|t' ts]; [reflexivity|].
  change (removelast (t :: t' :: ts)) with (t :: removelast (t' :: ts)).
  simpl. f_equal. by apply IH.
Qed.

(** X3: [load_r_raster] looks at its argument only through the
    dot-separated tokens before the last one.  Two filenames that
    differ in the last token alone, such as [a.grd] and [a.gri], load
    the same raster or raise the same exception. *)
Theorem load_r_raster_ignores_last_token w filename filename' :
  removelast (split extsep filename) = removelast (split extsep filename') ->
  load_r_raster w filename = load_r_raster w filename'.
Proof.
  intros Hstem. unfold load_r_raster.
  pose proof (split_nonempty extsep filename) as Hne.
  pose proof (split_nonempty extsep filename') as Hne'.
  rewrite !(set_last_Ok _ "grd") by assumption. cbn [bind].
  rewrite !(set_last_Ok _ "gri") by (by apply insert_last_nonempty). cbn [bind].
  rewrite !(set_last_Ok _ "tif")
    by (apply insert_last_nonempty; by apply insert_last_nonempty).
  rewrite !length_insert, !list_insert_insert_eq.
  rewrite !(insert_last_removelast (split extsep filename)) by assumption.
  rewrite !(insert_last_removelast (split extsep filename')) by assumption.
  by rewrite Hstem.
Qed.

Lemma load_r_raster_ignores_last_token_witness :
  removelast (split extsep "data/a.grd") = removelast (split extsep "data/a.gri")
  /\ forall w, load_r_raster w "data/a.grd" = load_r_raster w "data/a.gri".
Proof.
  assert (removelast (split extsep "data/a.grd") = removelast (split extsep "data/a.gri"))
    as H by reflexivity.
  split; [exact H|]. intros w.
  exact (load_r_raster_ignores_last_token w "data/a.grd" "data/a.gri" H).
Defined.

(** ** Failures of the custom-format loader

    Each step of [load_r_raster] that can fail, in the order of the
    source, given that the steps before it went well. *)

(** Enter the body of the loader: the two paths are computed first. *)
Ltac enter_loader filename :=
  unfold load_r_raster;
  let Hne := fresh "Hne" in
  pose proof (split_nonempty extsep filename) as Hne;
  rewrite (set_last_Ok _ "grd") by exact Hne; cbn [bind];
  rewrite (set_last_Ok _ "gri") by (by apply insert_last_nonempty); cbn [bind];
  rewrite length_insert, list_insert_insert_eq;
  fold (sibling_path filename "grd") (sibling_path filename "gri").

(** Run the steps whose outcome a hypothesis gives. *)
Ltac run_loader :=
  repeat (cbn [bind fst snd length Nat.eqb];
          match goal with
          | H : ?m = Ok _ |- context [bind ?m _] => rewrite H
          | H : ?m = Raise _ |- context [bind ?m _] => rewrite H
          end);
  cbn [bind fst snd length Nat.eqb].

Lemma config_read_parsed w path cfg :
  ini_files w path = IniParsed cfg -> config_read w path = Ok (cfg, [path]).
Proof. unfold config_read. by intros ->. Qed.

Lemma dict_get_missing {V} (d : gmap string V) key :
  d !! key = None -> dict_get d key = Raise (Exn KeyError key).
Proof. unfold dict_get. by intros ->. Qed.

(** X4: an unreadable sidecar always ends in the [TypeError] of the
    [raise] statement at line 48, whatever else the world holds: the
    text that names the sidecar never reaches the caller. *)
Theorem load_r_raster_unreadable_type_error w filename :
  ini_files w (sibling_path filename "grd") = IniUnreadable ->
  load_r_raster w filename
  = Raise (Exn TypeError "exceptions must derive from BaseException").
Proof.
  intros Hini. enter_loader filename. unfold config_read. by rewrite Hini.
Qed.

Lemma load_r_raster_unreadable_type_error_witness :
  let w := Sample.world Sample.range_cfg Sample.range_payload in
  ini_files w (sibling_path "missing.gri" "grd") = IniUnreadable
  /\ load_r_raster w "missing.gri"
     = Raise (Exn TypeError "exceptions must derive from BaseException").
Proof.
  intros w.
  assert (ini_files w (sibling_path "missing.gri" "grd") = IniUnreadable) as H
    by (vm_compute; reflexivity).
  split; [exact H|]. exact (load_r_raster_unreadable_type_error w "missing.gri" H).
Defined.

(** X5: with a readable sidecar and no payload file the load raises
    [OSError] for the [.gri] path, before any key of the sidecar is
    looked at. *)
Theorem load_r_raster_missing_payload w filename cfg :
  ini_files w (sibling_path filename "grd") = IniParsed cfg ->
  bin_files w (sibling_path filename "gri") = None ->
  load_r_raster w filename = Raise (Exn OSError (sibling_path filename "gri")).
Proof.
  intros Hini Hbin. enter_loader filename.
  apply config_read_parsed in Hini. run_loader.
  unfold open_rb. by rewrite Hbin.
Qed.

Lemma load_r_raster_missing_payload_witness :
  let w := {| py_int := Sample.parse_int; py_float := Sample.parse_float;
              ini_files := fun _ => IniParsed ∅; bin_files := fun _ => None;
              proj4_to_wkt := fun s => s;
              gdal_Open := fun p _ => Raise (Exn RuntimeError p);
              resample_global := None |} in
  ini_files w (sibling_path "a.grd" "grd") = IniParsed ∅
  /\ bin_files w (sibling_path "a.grd" "gri") = None
  /\ load_r_raster w "a.grd" = Raise (Exn OSError "a.gri").
Proof.
  intros w.
  assert (ini_files w (sibling_path "a.grd" "grd") = IniParsed ∅) as Hini by reflexivity.
  assert (bin_files w (sibling_path "a.grd" "gri") = None) as Hbin by reflexivity.
  split; [exact Hini|]. split; [exact Hbin|].
  exact (load_r_raster_missing_payload w "a.grd" ∅ Hini Hbin).
Defined.

(** X6: a datatype tag outside the nine of [DATATYPES] raises
    [KeyError] with that tag; so does a byte order other than [little]
    and [big], once the datatype is known. *)
Theorem load_r_raster_unknown_tag w filename cfg payload datatype byteorder :
  ini_files w (sibling_path filename "grd") = IniParsed cfg ->
  bin_files w (sibling_path filename "gri") = Some payload ->
  config_get cfg "data" "datatype" = Ok datatype ->
  config_get cfg "data" "byteorder" = Ok byteorder ->
  (DATATYPES !! datatype = None ->
   load_r_raster w filename = Raise (Exn KeyError datatype))
  /\ (is_Some (DATATYPES !! datatype) -> BYTEORDER !! byteorder = None ->
      load_r_raster w filename = Raise (Exn KeyError byteorder)).
Proof.
  intros Hini Hbin Hdt Hbo.
  apply config_read_parsed in Hini. apply open_rb_Ok in Hbin.
  split.
  - intros Hmiss. apply dict_get_missing in Hmiss.
    enter_loader filename. by run_loader.
  - intros [dt Hcode] Hmiss. apply dict_get_Ok in Hcode. apply dict_get_missing in Hmiss.
    enter_loader filename. by run_loader.
Qed.

Lemma load_r_raster_unknown_tag_witness :
  let cfg := Sample.sidecar "INT3S" "middle" "0" "10" "-9999" "2" "1" in
  let cfg' := Sample.sidecar "INT2S" "middle" "0" "10" "-9999" "2" "1" in
  load_r_raster (Sample.world cfg Sample.range_payload) "a.grd"
    = Raise (Exn KeyError "INT3S")
  /\ load_r_raster (Sample.world cfg' Sample.range_payload) "a.grd"
    = Raise (Exn KeyError "middle").
Proof.
  intros cfg cfg'. split.
  - apply (load_r_raster_unknown_tag (Sample.world cfg Sample.range_payload)
             "a.grd" cfg Sample.range_payload "INT3S" "middle"); reflexivity.
  - apply (load_r_raster_unknown_tag (Sample.world cfg' Sample.range_payload)
             "a.grd" cfg' Sample.range_payload "INT2S" "middle");
      solve [reflexivity | by eexists].
Defined.

(** X7: a sidecar without a [data] section raises [NoSectionError];
    one whose [data] section lacks the [datatype] option raises
    [NoOptionError].  Both come after the payload file has been
    read. *)
Theorem load_r_raster_missing_datatype w filename cfg payload :
  ini_files w (sibling_path filename "grd") = IniParsed cfg ->
  bin_files w (sibling_path filename "gri") = Some payload ->
  (cfg !! "data" = None ->
   load_r_raster w filename = Raise (Exn NoSectionError "data"))
  /\ (forall section, cfg !! "data" = Some section -> section !! "datatype" = None ->
      load_r_raster w filename = Raise (Exn NoOptionError "datatype")).
Proof.
  intros Hini Hbin.
  apply config_read_parsed in Hini. apply open_rb_Ok in Hbin.
  split.
  - intros Hsec. enter_loader filename. run_loader.
    unfold config_get. by rewrite Hsec.
  - intros section Hsec Hopt. enter_loader filename. run_loader.
    unfold config_get. by rewrite Hsec, Hopt.
Qed.

Lemma load_r_raster_missing_datatype_witness :
  let w := Sample.world ∅ Sample.range_payload in
  let w' := Sample.world {[ "data" := ∅ ]} Sample.range_payload in
  load_r_raster w "a.grd" = Raise (Exn NoSectionError "data")
  /\ load_r_raster w' "a.grd" = Raise (Exn NoOptionError "datatype").
Proof.
  intros w w'.
  destruct (load_r_raster_missing_datatype w "a.grd" ∅ Sample.range_payload
              eq_refl eq_refl) as [Hsection _].
  destruct (load_r_raster_missing_datatype w' "a.grd" {[ "data" := ∅ ]}
              Sample.range_payload eq_refl eq_refl) as [_ Hoption].
  split; [apply Hsection; reflexivity | apply (Hoption ∅); reflexivity].
Defined.

Lemma unpack_not_multiple bo dt (payload : list byte) :
  Z.of_nat (length payload) mod calcsize dt <> 0 ->
  unpack (Format bo (Z.of_nat (length payload) / calcsize dt) dt) payload
  = Raise (Exn StructError
             ("unpack requires a buffer of "
              +:+ pretty (Z.of_nat (length payload) / calcsize dt * calcsize dt)
              +:+ " bytes")).
Proof.
  intros Hmod. unfold unpack. cbn [fmt_count fmt_item fmt_order].
  pose proof (calcsize_pos dt) as Hpos.
  destruct (Z.eqb_spec (Z.of_nat (length payload))
              (Z.of_nat (length payload) / calcsize dt * calcsize dt)) as [Heq|]; [|reflexivity].
  destruct Hmod. rewrite Z.mod_eq by lia. lia.
Qed.

(** X8: a payload whose byte length is not a multiple of the width of
    the datatype raises [struct.error]: the format asks for the whole
    number of items that fit, and [unpack] wants a buffer of exactly
    that size. *)
Theorem load_r_raster_ragged_payload w filename cfg payload datatype byteorder dt bo :
  ini_files w (sibling_path filename "grd") = IniParsed cfg ->
  bin_files w (sibling_path filename "gri") = Some payload ->
  config_get cfg "data" "datatype" = Ok datatype ->
  config_get cfg "data" "byteorder" = Ok byteorder ->
  DATATYPES !! datatype = Some dt ->
  BYTEORDER !! byteorder = Some bo ->
  Z.of_nat (length payload) mod calcsize dt <> 0 ->
  load_r_raster w filename
  = Raise (Exn StructError
             ("unpack requires a buffer of "
              +:+ pretty (Z.of_nat (length payload) / calcsize dt * calcsize dt)
              +:+ " bytes")).
Proof.
  intros Hini Hbin Hdt Hbo Hcode Hord Hmod.
  apply config_read_parsed in Hini. apply open_rb_Ok in Hbin.
  apply dict_get_Ok in Hcode, Hord.
  pose proof (unpack_not_multiple bo dt payload Hmod) as Hun.
  enter_loader filename. by run_loader.
Qed.

Lemma load_r_raster_ragged_payload_witness :
  let payload := [x05; x00; x14]%byte in
  let w := Sample.world Sample.range_cfg payload in
  Z.of_nat (length payload) mod calcsize fmt_h <> 0
  /\ load_r_raster w "a.grd"
     = Raise (Exn StructError "unpack requires a buffer of 2 bytes").
Proof.
  intros payload w.
  assert (Z.of_nat (length payload) mod calcsize fmt_h <> 0) as Hmod by discriminate.
  split; [exact Hmod|].
  exact (load_r_raster_ragged_payload w "a.grd" Sample.range_cfg payload
           "INT2S" "little" fmt_h LittleEndian
           eq_refl eq_refl eq_refl eq_refl eq_refl eq_refl Hmod).
Defined.

(** X9: a sidecar that declares [ncols = 0] stops the load with
    [ZeroDivisionError] when the x resolution is computed, whatever
    the payload and the other dimensions are. *)
Theorem load_r_raster_zero_columns
    w filename cfg payload datatype byteorder dt bo values nrows xmax xmin ymax ymin :
  ini_files w (sibling_path filename "grd") = IniParsed cfg ->
  bin_files w (sibling_path filename "gri") = Some payload ->
  config_get cfg "data" "datatype" = Ok datatype ->
  config_get cfg "data" "byteorder" = Ok byteorder ->
  DATATYPES !! datatype = Some dt ->
  BYTEORDER !! byteorder = Some bo ->
  unpack (Format bo (Z.of_nat (length payload) / calcsize dt) dt) payload = Ok values ->
  config_getint w cfg "georeference" "ncols" = Ok 0 ->
  config_getint w cfg "georeference" "nrows" = Ok nrows ->
  config_getfloat w cfg "georeference" "xmax" = Ok xmax ->
  config_getfloat w cfg "georeference" "xmin" = Ok xmin ->
  config_getfloat w cfg "georeference" "ymax" = Ok ymax ->
  config_getfloat w cfg "georeference" "ymin" = Ok ymin ->
  load_r_raster w filename = Raise (Exn ZeroDivisionError "float division by zero").
Proof.
  intros Hini Hbin Hdt Hbo Hcode Hord Hun Hnc Hnr Hxmax Hxmin Hymax Hymin.
  apply config_read_parsed in Hini. apply open_rb_Ok in Hbin.
  apply dict_get_Ok in Hcode, Hord.
  enter_loader filename. by run_loader.
Qed.

Lemma load_r_raster_zero_columns_witness :
  let cfg := Sample.sidecar "INT2S" "little" "0" "10" "-9999" "0" "1" in
  let w := Sample.world cfg Sample.range_payload in
  config_getint w cfg "georeference" "ncols" = Ok 0
  /\ load_r_raster w "a.grd" = Raise (Exn ZeroDivisionError "float division by zero").
Proof.
  intros cfg w. split; [reflexivity|].
  exact (load_r_raster_zero_columns w "a.grd" cfg Sample.range_payload
           "INT2S" "little" fmt_h LittleEndian [NInt 5; NInt 20] 1
           (float_lit 4) (float_lit 0) (float_lit 3) (float_lit 0)
           eq_refl eq_refl eq_refl eq_refl eq_refl eq_refl eq_refl
           eq_refl eq_refl eq_refl eq_refl eq_refl eq_refl).
Defined.

(** ** What the loader returns *)

(** X10: every raster [load_r_raster] returns has at least one column
    and one row, is described by the [.tif] sibling of the filename,
    carries the projection converted from the PROJ4 text of the
    sidecar, and has exactly one band: without a description, of the
    GDAL type that [GDALTYPES] gives for the datatype tag. *)
Theorem load_r_raster_dataset_shape w filename cfg datatype proj4 ds :
  ini_files w (sibling_path filename "grd") = IniParsed cfg ->
  config_get cfg "data" "datatype" = Ok datatype ->
  config_get cfg "georeference" "projection" = Ok proj4 ->
  load_r_raster w filename = Ok ds ->
  1 <= RasterXSize ds /\ 1 <= RasterYSize ds
  /\ description ds = sibling_path filename "tif"
  /\ Projection ds = proj4_to_wkt w proj4
  /\ RasterCount ds = 1
  /\ exists band,
       bands ds = [band]
       /\ band_description band = ""
       /\ GDALTYPES !! datatype = Some (band_type band).
Proof.
  intros Hini Hdt Hproj Hload.
  apply load_r_raster_Loaded in Hload.
  destruct Hload as [cfg' binstring datatype' byteorder dt bo values ncols nrows
          xmax xmin ymax ymin xres yres minval maxval nodatavalue arr gdaltype proj4'
          Hini' _ Hdt' _ _ _ _ _ _ _ _ _ _ _ _ _ _ _ _ Hgdal Hc Hr Hproj'].
  rewrite Hini in Hini'. injection Hini' as <-.
  same_entry Hdt Hdt'. same_entry Hproj Hproj'.
  cbn. repeat split; try assumption. eexists. by repeat split.
Qed.

Lemma load_r_raster_dataset_shape_witness :
  let w := Sample.world Sample.range_cfg Sample.range_payload in
  exists ds,
    load_r_raster w "a.grd" = Ok ds
    /\ description ds = "a.tif"
    /\ Projection ds = "+proj=longlat"
    /\ RasterCount ds = 1.
Proof.
  intros w.
  destruct (load_r_raster w "a.grd") as [ds|e] eqn:Hload;
    [|vm_compute in Hload; discriminate Hload].
  exists ds. split; [reflexivity|].
  destruct (load_r_raster_dataset_shape w "a.grd" Sample.range_cfg "INT2S"
              "+proj=longlat" ds eq_refl eq_refl eq_refl Hload)
    as (_ & _ & Hdesc & Hproj & Hcount & _).
  by repeat split.
Defined.

(** X11: read in row-major order, the cells of the loaded band are the
    items of the payload in payload order, each one passed through the
    validity filter, all of them converted to one array type and then
    to the pixel type of the band. *)
Theorem load_r_raster_cells_row_major
    w filename cfg payload datatype byteorder dt bo minval maxval nodatavalue ds :
  ini_files w (sibling_path filename "grd") = IniParsed cfg ->
  bin_files w (sibling_path filename "gri") = Some payload ->
  config_get cfg "data" "datatype" = Ok datatype ->
  config_get cfg "data" "byteorder" = Ok byteorder ->
  DATATYPES !! datatype = Some dt ->
  BYTEORDER !! byteorder = Some bo ->
  config_getfloat w cfg "data" "minvalue" = Ok minval ->
  config_getfloat w cfg "data" "maxvalue" = Ok maxval ->
  config_getfloat w cfg "data" "nodatavalue" = Ok nodatavalue ->
  load_r_raster w filename = Ok ds ->
  exists band values,
    bands ds = [band]
    /\ unpack (Format bo (Z.of_nat (length payload) / calcsize dt) dt) payload = Ok values
    /\ flatten (band_array band)
       = map (gdal_convert (band_type band))
           (np_array (map (keep_or_nodata minval maxval nodatavalue) values))
    /\ Z.of_nat (length values) = RasterYSize ds * RasterXSize ds.
Proof.
  intros Hini Hbin Hdt Hbo Hcode Hord Hmin Hmax Hnodata Hload.
  apply load_r_raster_Loaded in Hload.
  destruct Hload as [cfg' binstring datatype' byteorder' dt' bo' values ncols nrows
          xmax xmin ymax ymin xres yres minval' maxval' nodatavalue' arr gdaltype proj4
          Hini' Hbin' Hdt' Hbo' Hcode' Hord' Hun _ _ _ _ _ _ _ _
          Hmin' Hmax' Hnodata' Harr _ Hc Hr _].
  rewrite Hini in Hini'. injection Hini' as <-.
  rewrite Hbin in Hbin'. injection Hbin' as <-.
  same_entry Hdt Hdt'. same_entry Hbo Hbo'.
  rewrite Hcode in Hcode'. injection Hcode' as <-.
  rewrite Hord in Hord'. injection Hord' as <-.
  same_entry Hmin Hmin'. same_entry Hmax Hmax'. same_entry Hnodata Hnodata'.
  apply reshape_positive in Harr as [Hcells ->]; [|assumption..].
  eexists _, values. cbn. repeat split; [exact Hun| |].
  - unfold flatten. cbn [band_array band_type].
    rewrite <- concat_map. f_equal. apply chunks_concat. nia.
  - by rewrite np_array_length, length_map in Hcells.
Qed.

Lemma load_r_raster_cells_row_major_witness :
  let cfg := Sample.sidecar "INT2S" "little" "5" "5" "-9999" "1" "2" in
  let w := Sample.world cfg Sample.range_payload in
  exists ds band,
    load_r_raster w "a.grd" = Ok ds
    /\ bands ds = [band]
    /\ flatten (band_array band) = [NInt 5; NInt (-9999)].
Proof.
  intros cfg w.
  destruct (load_r_raster w "a.grd") as [ds|e] eqn:Hload;
    [|vm_compute in Hload; discriminate Hload].
  destruct (load_r_raster_cells_row_major w "a.grd" cfg Sample.range_payload
              "INT2S" "little" fmt_h LittleEndian
              (float_lit 5) (float_lit 5) (float_lit (-9999)) ds
              eq_refl eq_refl eq_refl eq_refl eq_refl eq_refl eq_refl eq_refl eq_refl Hload)
    as (band & values & Hband & Hun & Hcells & _).
  exists ds, band. split; [reflexivity|]. split; [exact Hband|].
  vm_compute in Hload. injection Hload as <-.
  cbn [bands] in Hband. injection Hband as <-.
  rewrite Hcells. vm_compute in Hun. injection Hun as <-. vm_compute. reflexivity.
Defined.

(** X12: with [minvalue = maxvalue] the validity filter keeps exactly
    the values equal to that bound and replaces every other one by the
    nodata value. *)
Theorem keep_or_nodata_degenerate_range bound nodatavalue x :
  keep_or_nodata bound bound nodatavalue x
  = if py_eq x (NFloat bound) then x else NFloat nodatavalue.
Proof.
  unfold keep_or_nodata, py_ge, py_le, py_eq.
  destruct (num_value x) as [a|]; [|reflexivity].
  destruct (num_value (NFloat bound)) as [b|]; [|reflexivity].
  replace (ext_leb a b && ext_leb b a) with (ext_eqb a b); [reflexivity|].
  destruct a as [|p|], b as [|q|]; try reflexivity. simpl.
  apply eq_true_iff_eq.
  rewrite andb_true_iff, !Qle_bool_iff, Qeq_bool_iff.
  split; [intros ->; split; apply Qle_refl | intros [? ?]; by apply Qle_antisym].
Qed.

(** ** The tables *)

(** X13: [DATATYPES] and [GDALTYPES] have the same keys, so a datatype
    tag that passed the lookup at line 54 cannot fail the one at
    line 85. *)
Theorem GDALTYPES_covers_DATATYPES tag :
  is_Some (DATATYPES !! tag) <-> is_Some (GDALTYPES !! tag).
Proof.
  rewrite <- !elem_of_dom.
  assert (dom DATATYPES = dom GDALTYPES) as -> by (by vm_compute); reflexivity.
Qed.

(** ** Routing in [load] *)

(** X14: a non-empty hint decides the route alone, whatever the
    extension of the file: [r-raster] goes to the custom loader, whose
    exceptions leave [load] as they are, and any other hint goes to
    [gdal.Open], whose exceptions are swallowed. *)
Theorem load_hint_overrides_extension w filename c hint :
  load w filename (Some (String c hint))
  = if String.eqb (String c hint) "r-raster"
    then ([], ds <- load_r_raster w filename ;; Ok (Some ds))
    else match gdal_Open w filename GA_ReadOnly with
         | Ok ds => ([], Ok (Some ds))
         | Raise _ => (["could not open raster file " +:+ filename], Ok None)
         end.
Proof.
  unfold load. cbn [resolve_rastertype].
  destruct (String.eqb_spec (String c hint) "r-raster") as [->|Hne].
  - by rewrite bool_decide_eq_true_2.
  - rewrite bool_decide_eq_false_2; [reflexivity | congruence].
Qed.

(** X15: without a hint (the default [None], or an empty string) a
    filename whose last dot-separated token is [gri] or [grd] goes to
    the custom loader: [load] prints nothing and returns the raster or
    raises the exception of [load_r_raster]. *)
Theorem load_infers_custom_format w filename rastertype ext :
  rastertype = None \/ rastertype = Some "" ->
  get_last (split extsep filename) = Ok ext ->
  ext = "gri" \/ ext = "grd" ->
  load w filename rastertype = ([], ds <- load_r_raster w filename ;; Ok (Some ds)).
Proof.
  intros Hhint Hext Hcustom. unfold load.
  assert (resolve_rastertype filename rastertype = Ok (Some "r-raster")) as ->.
  { unfold resolve_rastertype.
    destruct Hhint as [-> | ->]; rewrite Hext; cbn [bind];
      destruct Hcustom as [-> | ->]; reflexivity. }
  by rewrite bool_decide_eq_true_2.
Qed.

Lemma load_infers_custom_format_witness :
  let w := Sample.world Sample.range_cfg Sample.range_payload in
  get_last (split extsep "missing.grd") = Ok "grd"
  /\ load w "missing.grd" None
     = ([], Raise (Exn TypeError "exceptions must derive from BaseException")).
Proof.
  intros w.
  assert (get_last (split extsep "missing.grd") = Ok "grd") as Hext by reflexivity.
  split; [exact Hext|].
  rewrite (load_infers_custom_format w "missing.grd" None "grd"
             (or_introl eq_refl) Hext (or_intror eq_refl)).
  vm_compute. reflexivity.
Defined.

(** ** The table builder, when it returns *)

Lemma add_xy_rows k instances x_mesh y_mesh table :
  add_xy k instances x_mesh y_mesh = Ok table ->
  length table = length instances
  /\ forall j row, table !! j = Some row ->
       exists inst xrow yrow,
         instances !! j = Some inst
         /\ x_mesh !! (k + j)%nat = Some xrow
         /\ y_mesh !! (k + j)%nat = Some yrow
         /\ row = <[ "y" := CArr yrow ]> (<[ "x" := CArr xrow ]> inst).
Proof.
  revert k table. induction instances as [|inst instances IH]; intros k table; simpl.
  - intros [= <-]. split; [reflexivity|]. intros j row Hrow. discriminate Hrow.
  - destruct (x_mesh !! k) as [xrow|] eqn:Hx; [|discriminate].
    destruct (y_mesh !! k) as [yrow|] eqn:Hy; [|discriminate].
    intros H. peel H. injection H as <-.
    apply IH in E as [Hlen Hrows]. split; [simpl; by rewrite Hlen|].
    intros [|j] row Hrow; simpl in Hrow.
    + injection Hrow as <-. exists inst, xrow, yrow.
      rewrite Nat.add_0_r. by repeat split.
    + apply Hrows in Hrow as (inst' & xr & yr & Hi & Hxr & Hyr & ->).
      exists inst', xr, yr. rewrite <- Nat.add_succ_comm. by repeat split.
Qed.



Lemma store_values_overflow key k values instances ix :
  (k <= length instances)%nat ->
  (length instances < k + length values)%nat ->
  store_values (Some key) k values instances ix
  = Raise (Exn IndexError "list index out of range").
Proof.
  revert k instances ix. induction values as [|v values IH]; intros k instances ix Hk Hlen.
  - simpl in Hlen. lia.
  - simpl. destruct (instances !! k) as [inst|] eqn:Hinst; [|reflexivity].
    apply lookup_lt_Some in Hinst.
    apply IH; rewrite length_insert; simpl in Hlen; lia.
Qed.

(** X17: a band with more cells than the grid of the first raster has
    stops [make_table] with [IndexError]: here for the band of a
    single-band first raster without a band description. *)
Theorem make_table_band_too_large r0 rest band :
  bands r0 = [band] ->
  band_description band = "" ->
  (Z.to_nat (RasterXSize r0 * RasterYSize r0) < length (flatten (band_array band)))%nat ->
  make_table (r0 :: rest) = Raise (Exn IndexError "list index out of range").
Proof.
  intros Hbands Hdesc Hlarge. unfold make_table.
  cbn [raster_loop]. unfold RasterCount. rewrite Hbands. cbn [band_loop length].
  unfold name_band. rewrite Hdesc. cbn [String.eqb].
  change (1 <? Z.of_nat 1) with false. cbn [bind band_name i].
  rewrite store_values_overflow; [reflexivity | lia |].
  by rewrite length_replicate.
Qed.

Lemma make_table_band_too_large_witness :
  let band := Sample.band "" [[NInt 1; NInt 2]; [NInt 3; NInt 4]] in
  let r0 := Sample.raster "data/bio1.tif" 1 2 [band] in
  (Z.to_nat (RasterXSize r0 * RasterYSize r0) < length (flatten (band_array band)))%nat
  /\ make_table [r0] = Raise (Exn IndexError "list index out of range").
Proof.
  intros band r0.
  assert (Z.to_nat (RasterXSize r0 * RasterYSize r0)
          < length (flatten (band_array band)))%nat as Hlarge by (vm_compute; lia).
  split; [exact Hlarge|].
  exact (make_table_band_too_large r0 [] band eq_refl eq_refl Hlarge).
Defined.

(** ** The pipeline, at its edges *)

Lemma georeferences_none handles :
  None ∈ handles ->
  georeferences handles
  = Raise (Exn AttributeError "'NoneType' object has no attribute 'GetGeoTransform'").
Proof.
  induction handles as [|h handles IH]; intros Hin.
  - by apply elem_of_nil in Hin.
  - destruct h as [r|]; [|reflexivity].
    apply elem_of_cons in Hin as [Heq|Hin]; [discriminate Heq|].
    simpl. by rewrite IH.
Qed.

(** X18: a file that [gdal.Open] cannot open does not stop [load], but
    it stops the pipeline: when every [load] returns and one of them
    returns [None], [rasters_to_table] raises [AttributeError] at the
    first use of the handles, after the lines the loads printed. *)
Theorem rasters_to_table_unopened_file w filenames out handles :
  load_all w filenames = (out, Ok handles) ->
  None ∈ handles ->
  rasters_to_table w filenames
  = (out, Raise (Exn AttributeError
                   "'NoneType' object has no attribute 'GetGeoTransform'")).
Proof.
  intros Hload Hnone. unfold rasters_to_table. rewrite Hload. cbn [fst snd bind].
  by rewrite georeferences_none.
Qed.

Lemma rasters_to_table_unopened_file_witness :
  let w := Sample.gdal_world None in
  load_all w ["bio1.tif"; "nowhere.tif"]
  = (["could not open raster file nowhere.tif"],
     Ok [Some (Sample.raster "bio1.tif" 1 1 [Sample.band "" [[NInt 7]]]); None])
  /\ rasters_to_table w ["bio1.tif"; "nowhere.tif"]
     = (["could not open raster file nowhere.tif"],
        Raise (Exn AttributeError
                 "'NoneType' object has no attribute 'GetGeoTransform'")).
Proof.
  intros w.
  assert (load_all w ["bio1.tif"; "nowhere.tif"]
          = (["could not open raster file nowhere.tif"],
             Ok [Some (Sample.raster "bio1.tif" 1 1 [Sample.band "" [[NInt 7]]]); None]))
    as Hload by reflexivity.
  split; [exact Hload|].
  apply (rasters_to_table_unopened_file w _ _ _ Hload).
  apply elem_of_cons. right. apply elem_of_cons. by left.
Defined.

(** X19: on an empty list of filenames [rasters_to_table] raises
    [ValueError]: the empty [zip] cannot be unpacked into the two
    tuples, and neither [all_equal] nor [make_table] is reached. *)
Theorem rasters_to_table_no_files w :
  rasters_to_table w []
  = ([], Raise (Exn ValueError "not enough values to unpack (expected 2, got 0)")).
Proof. reflexivity. Qed.

(** X20: rasters that agree in geotransform and projection (a single
    raster always does) go to [make_table] as they are, and the name
    [resample_and_reproject] is not looked up: the result is the same
    whether or not anything is bound to it. *)
Theorem rasters_to_table_aligned w filenames out rasters :
  load_all w filenames = (out, Ok (map Some rasters)) ->
  rasters <> [] ->
  all_identical rasters = true ->
  rasters_to_table w filenames = (out, make_table rasters).
Proof.
  intros Hload Hne Hsame. unfold rasters_to_table. rewrite Hload.
  cbn [fst snd bind]. f_equal.
  rewrite georeferences_loaded. cbn [bind].
  rewrite !length_map, !map_map. cbn [fst snd]. rewrite map_id.
  destruct rasters as [|r0 rest]; [congruence|].
  cbn [length Nat.eqb bind map].
  rewrite (all_equal_forallb geotransform_eqb), (all_equal_forallb String.eqb).
  cbn [bind]. rewrite all_identical_split, !forallb_over_map in *.
  apply andb_true_iff in Hsame as [-> ->]. reflexivity.
Qed.

Lemma rasters_to_table_aligned_witness :
  let w := Sample.gdal_world None in
  let rasters := [Sample.raster "bio1.tif" 1 1 [Sample.band "" [[NInt 7]]]] in
  load_all w ["bio1.tif"] = ([], Ok (map Some rasters))
  /\ all_identical rasters = true
  /\ rasters_to_table w ["bio1.tif"] = ([], make_table rasters).
Proof.
  intros w rasters.
  assert (load_all w ["bio1.tif"] = ([], Ok (map Some rasters))) as Hload by reflexivity.
  assert (rasters <> []) as Hne by discriminate.
  assert (all_identical rasters = true) as Hsame by reflexivity.
  split; [exact Hload|]. split; [exact Hsame|].
  exact (rasters_to_table_aligned w ["bio1.tif"] [] rasters Hload Hne Hsame).
Defined.

(** X21: in the module as it stands, where nothing binds
    [resample_and_reproject], rasters that differ in geotransform or
    projection end the pipeline with [NameError]; [make_table] is not
    called. *)
Theorem rasters_to_table_name_error w filenames out rasters :
  load_all w filenames = (out, Ok (map Some rasters)) ->
  all_identical rasters = false ->
  resample_global w = None ->
  rasters_to_table w filenames
  = (out, Raise (Exn NameError "name 'resample_and_reproject' is not defined")).
Proof.
  intros Hload Hdiff Hglobal. unfold rasters_to_table. rewrite Hload.
  cbn [fst snd bind]. f_equal.
  rewrite georeferences_loaded. cbn [bind].
  rewrite !length_map, !map_map. cbn [fst snd]. rewrite map_id.
  destruct rasters as [|r0 rest]; [discriminate Hdiff|].
  cbn [length Nat.eqb bind map].
  rewrite (all_equal_forallb geotransform_eqb), (all_equal_forallb String.eqb).
  cbn [bind]. rewrite all_identical_split, !forallb_over_map in *.
  unfold call_resample. rewrite Hglobal.
  destruct (forallb _ rest); cbn [bind negb orb andb] in *; [|reflexivity].
  destruct (forallb _ rest); [discriminate Hdiff | reflexivity].
Qed.

Lemma rasters_to_table_name_error_witness :
  let w := Sample.gdal_world None in
  let rasters := [Sample.raster "bio1.tif" 1 1 [Sample.band "" [[NInt 7]]];
                  Sample.shifted "bio2.tif" [Sample.band "" [[NInt 8]]]] in
  load_all w ["bio1.tif"; "bio2.tif"] = ([], Ok (map Some rasters))
  /\ all_identical rasters = false
  /\ rasters_to_table w ["bio1.tif"; "bio2.tif"]
     = ([], Raise (Exn NameError "name 'resample_and_reproject' is not defined")).
Proof.
  intros w rasters.
  assert (load_all w ["bio1.tif"; "bio2.tif"] = ([], Ok (map Some rasters))) as Hload
    by reflexivity.
  assert (all_identical rasters = false) as Hdiff by (vm_compute; reflexivity).
  split; [exact Hload|]. split; [exact Hdiff|].
  exact (rasters_to_table_name_error w _ [] rasters Hload Hdiff eq_refl).
Defined.

(** ** Feature names that collide *)

Lemma store_values_full key values pre suf ix :
  length suf = length values ->
  exists ix',
    store_values (Some key) (length pre) values (pre ++ suf)%list ix
    = Ok ((pre ++ zip_with (fun v inst => <[ key := CNum v ]> inst) values suf)%list, ix').
Proof.
  revert pre suf ix. induction values as [|v values IH]; intros pre suf ix Hlen.
  - destruct suf; [|discriminate Hlen]. by exists ix.
  - destruct suf as [|inst suf]; [discriminate Hlen|]. simpl.
    rewrite lookup_app_r by lia. rewrite Nat.sub_diag. simpl.
    rewrite insert_app_r_alt by lia. rewrite Nat.sub_diag. simpl.
    destruct (IH (pre ++ [<[ key := CNum v ]> inst])%list suf (Some (length pre)))
      as [ix' Hix]; [by injection Hlen|].
    rewrite length_app, Nat.add_1_r in Hix. rewrite <- !app_assoc in Hix. simpl in Hix.
    exists ix'. exact Hix.
Qed.

Lemma zip_with_put_twice key vs vs' (insts : list (gmap string cell)) :
  length vs = length insts -> length vs' = length insts ->
  zip_with (fun v inst => <[ key := CNum v ]> inst) vs'
    (zip_with (fun v inst => <[ key := CNum v ]> inst) vs insts)
  = zip_with (fun v inst => <[ key := CNum v ]> inst) vs' insts.
Proof.
  revert vs vs'. induction insts as [|inst insts IH]; intros vs vs' Hvs Hvs'.
  - by destruct vs, vs'.
  - destruct vs as [|v vs], vs' as [|v' vs']; try discriminate. simpl.
    rewrite insert_insert_eq. f_equal.
    apply IH; [by injection Hvs | by injection Hvs'].
Qed.

Lemma raster_loop_plain n rasters instances bn ix :
  Forall (plain_raster n) rasters ->
  length instances = n ->
  exists bn' ix',
    raster_loop rasters instances bn ix
    = Ok (match last rasters with
          | Some r => zip_with (fun v inst => <[ "" := CNum v ]> inst)
                        (first_band_values r) instances
          | None => instances
          end, bn', ix').
Proof.
  revert instances bn ix.
  induction rasters as [|r rest IH]; intros instances bn ix Hplain Hlen.
  - by exists bn, ix.
  - apply Forall_cons in Hplain as [(band & Hbands & Hdesc & Hcells) Hplain].
    cbn [raster_loop]. unfold RasterCount. rewrite Hbands. cbn [band_loop length].
    unfold name_band. rewrite Hdesc. cbn [String.eqb].
    change (1 <? Z.of_nat 1) with false. cbn [bind band_name i name].
    destruct (store_values_full "" (flatten (band_array band)) [] instances ix)
      as [ix1 Hstore]; [congruence|].
    simpl in Hstore. rewrite Hstore. cbn [bind fst snd band_name i].
    destruct (IH (zip_with (fun v inst => <[ "" := CNum v ]> inst)
                    (flatten (band_array band)) instances) (Some "") ix1 Hplain)
      as (bn' & ix' & Hrest); [rewrite length_zip_with; lia|].
    rewrite Hrest. exists bn', ix'. do 3 f_equal.
    destruct rest as [|r' rest].
    + simpl. unfold first_band_values. by rewrite Hbands.
    + change (last (r :: r' :: rest)) with (last (r' :: rest)).
      destruct (last (r' :: rest)) as [r_last|] eqn:Hlast;
        [|by apply last_None in Hlast].
      apply zip_with_put_twice; [congruence|].
      apply last_Some_elem_of in Hlast. rewrite Forall_forall in Hplain.
      destruct (Hplain _ Hlast) as (band' & Hbands' & _ & Hcells').
      unfold first_band_values. rewrite Hbands'. congruence.
Qed.

(** X22: rasters of a single band without a description all write
    under the same key, the empty string.  When [make_table] returns
    for a list of such rasters, each row holds under that key the cell
    of the last raster only, and has no key besides it, [x] and [y]:
    the cells of every earlier raster are overwritten. *)
Theorem make_table_plain_rasters_collide r0 rest r_last table :
  Forall (plain_raster (Z.to_nat (RasterXSize r0 * RasterYSize r0))) (r0 :: rest) ->
  last (r0 :: rest) = Some r_last ->
  make_table (r0 :: rest) = Ok table ->
  forall k row, table !! k = Some row ->
    (exists v, first_band_values r_last !! k = Some v /\ row !! "" = Some (CNum v))
    /\ forall key, is_Some (row !! key) -> key = "" \/ key = "x" \/ key = "y".
Proof.
  intros Hplain Hlast Htable k row Hrow.
  unfold make_table in Htable.
  destruct (raster_loop_plain _ (r0 :: rest)
              (replicate (Z.to_nat (RasterXSize r0 * RasterYSize r0)) ∅) None None Hplain)
    as (bn' & ix' & Hloop); [apply length_replicate|].
  rewrite Hloop, Hlast in Htable. cbn [bind fst] in Htable. peel Htable.
  apply add_xy_rows in Htable as [_ Hrows].
  apply Hrows in Hrow as (inst & xrow & yrow & Hinst & _ & _ & ->).
  apply lookup_zip_with_Some in Hinst as (val & empty & -> & Hval & Hempty).
  apply lookup_replicate in Hempty as [-> _].
  split.
  - exists val. split; [exact Hval|].
    rewrite !lookup_insert_ne by discriminate. apply lookup_insert_eq.
  - intros key [c Hkey].
    destruct (decide (key = "y")) as [->|Hy]; [tauto|].
    destruct (decide (key = "x")) as [->|Hx]; [tauto|].
    destruct (decide (key = "")) as [->|He]; [tauto|].
    rewrite !lookup_insert_ne in Hkey by congruence. by rewrite lookup_empty in Hkey.
Qed.

Lemma make_table_plain_rasters_collide_witness :
  let r0 := Sample.raster "bio1.tif" 1 2 [Sample.band "" [[NInt 1]; [NInt 2]]] in
  let r1 := Sample.raster "bio2.tif" 1 2 [Sample.band "" [[NInt 3]; [NInt 4]]] in
  exists row0 row1,
    make_table [r0; r1] = Ok [row0; row1]
    /\ row0 !! "" = Some (CNum (NInt 3))
    /\ row1 !! "" = Some (CNum (NInt 4)).
Proof.
  intros r0 r1.
  assert (Forall (plain_raster (Z.to_nat (RasterXSize r0 * RasterYSize r0))) [r0; r1])
    as Hplain by (repeat constructor; eexists; by repeat split).
  destruct (make_table [r0; r1]) as [table|e] eqn:Htable;
    [|vm_compute in Htable; discriminate Htable].
  pose proof (make_table_plain_rasters_collide r0 [r1] r1 table Hplain eq_refl Htable)
    as Hrows.
  vm_compute in Htable. injection Htable as <-.
  eexists _, _. split; [reflexivity|].
  destruct (Hrows 0%nat _ eq_refl) as [(v0 & Hv0 & Hrow0) _].
  destruct (Hrows 1%nat _ eq_refl) as [(v1 & Hv1 & Hrow1) _].
  injection Hv0 as <-. injection Hv1 as <-. split; [exact Hrow0 | exact Hrow1].
Defined.

(** ** What [struct.unpack] hands to the loader *)

Lemma byte_val_bound b : 0 <= byte_val b < 256.
Proof.
  unfold byte_val. pose proof (Byte.to_N_bounded b) as H. lia.
Qed.

Lemma le_uint_bound bs : 0 <= le_uint bs < 256 ^ Z.of_nat (length bs).
Proof.
  induction bs as [|b bs IH]; [simpl; lia|].
  cbn [le_uint length]. rewrite Nat2Z.inj_succ, Z.pow_succ_r by lia.
  pose proof (byte_val_bound b). lia.
Qed.

Lemma uint_of_bound bo bs : 0 <= uint_of bo bs < 256 ^ Z.of_nat (length bs).
Proof.
  destruct bo; simpl; [apply le_uint_bound|].
  rewrite <- (length_rev bs). apply le_uint_bound.
Qed.

Lemma to_signed_bound w u :
  0 < w -> 0 <= u < 2 ^ w -> - 2 ^ (w - 1) <= to_signed w u < 2 ^ (w - 1).
Proof.
  intros Hw Hu. unfold to_signed.
  replace (2 ^ w) with (2 * 2 ^ (w - 1)) in *
    by (rewrite <- Z.pow_succ_r by lia; f_equal; lia).
  destruct (Z.ltb_spec u (2 ^ (w - 1))); lia.
Qed.

(** X23: every item [struct.unpack] yields has the Python type and the
    range of its format code: a [bool] for [?], an [int] within the
    two's-complement range of 1, 2, 4 or 8 bytes for [b h i q], an
    [int] from 0 to 255 or 65535 for [B H], a [float] for [f d]. *)
Theorem unpack_item_ranges fmt buffer values x :
  unpack fmt buffer = Ok values ->
  x ∈ values ->
  match fmt_item fmt with
  | fmt_bool => exists b, x = NBool b
  | fmt_b => exists z, x = NInt z /\ -128 <= z <= 127
  | fmt_h => exists z, x = NInt z /\ -32768 <= z <= 32767
  | fmt_i => exists z, x = NInt z /\ -2147483648 <= z <= 2147483647
  | fmt_q => exists z, x = NInt z /\ - 2 ^ 63 <= z <= 2 ^ 63 - 1
  | fmt_B => exists z, x = NInt z /\ 0 <= z <= 255
  | fmt_H => exists z, x = NInt z /\ 0 <= z <= 65535
  | fmt_f | fmt_d => exists f, x = NFloat f
  end.
Proof.
  unfold unpack.
  destruct (Z.eqb_spec (Z.of_nat (length buffer)) (fmt_count fmt * calcsize (fmt_item fmt)))
    as [Hsize|]; [|discriminate].
  intros [= <-] Hx. apply list_elem_of_fmap in Hx as (chunk & -> & Hchunk).
  pose proof (calcsize_pos (fmt_item fmt)) as Hpos.
  assert (length chunk = Z.to_nat (calcsize (fmt_item fmt))) as Hlen.
  { pose proof (chunks_rows (Z.to_nat (fmt_count fmt))
                  (Z.to_nat (calcsize (fmt_item fmt))) buffer) as Hrows.
    rewrite Forall_forall in Hrows. apply Hrows; [|exact Hchunk]. nia. }
  pose proof (uint_of_bound (fmt_order fmt) chunk) as Hu.
  rewrite Hlen, Z2Nat.id in Hu by lia.
  unfold decode_item. set (u := uint_of (fmt_order fmt) chunk) in *.
  destruct (fmt_item fmt); cbn [calcsize] in Hu;
    try (eexists; reflexivity);
    try (eexists; split; [reflexivity | lia]).
  - eexists; split; [reflexivity|].
    assert (0 <= u < 2 ^ 8) as Hw by (change (2 ^ 8) with (256 ^ 1); exact Hu).
    pose proof (to_signed_bound 8 u eq_refl Hw) as Hs.
    change (2 ^ (8 - 1)) with 128 in Hs. lia.
  - eexists; split; [reflexivity|].
    assert (0 <= u < 2 ^ 16) as Hw by (change (2 ^ 16) with (256 ^ 2); exact Hu).
    pose proof (to_signed_bound 16 u eq_refl Hw) as Hs.
    change (2 ^ (16 - 1)) with 32768 in Hs. lia.
  - eexists; split; [reflexivity|].
    assert (0 <= u < 2 ^ 32) as Hw by (change (2 ^ 32) with (256 ^ 4); exact Hu).
    pose proof (to_signed_bound 32 u eq_refl Hw) as Hs.
    change (2 ^ (32 - 1)) with 2147483648 in Hs. lia.
  - eexists; split; [reflexivity|].
    assert (0 <= u < 2 ^ 64) as Hw by (change (2 ^ 64) with (256 ^ 8); exact Hu).
    pose proof (to_signed_bound 64 u eq_refl Hw) as Hs.
    change (64 - 1) with 63 in Hs. lia.
Qed.

Lemma unpack_item_ranges_witness :
  unpack (Format LittleEndian 2 fmt_h) [x05; x00; xff; xff]%byte = Ok [NInt 5; NInt (-1)]
  /\ exists z, NInt (-1) = NInt z /\ -32768 <= z <= 32767.
Proof.
  assert (unpack (Format LittleEndian 2 fmt_h) [x05; x00; xff; xff]%byte
          = Ok [NInt 5; NInt (-1)]) as Hun by reflexivity.
  split; [exact Hun|].
  apply (unpack_item_ranges _ _ _ (NInt (-1)) Hun).
  apply elem_of_cons. right. apply elem_of_cons. by left.
Defined.

(** ** Names that are read before they are bound *)

(** X24: when the first band [make_table] meets (the first band of
    the first raster) has a description, the function raises
    [UnboundLocalError] on [band_name] at the first cell it stores,
    provided the band and the grid have a cell at all: the branch for
    a band with a description never assigns the name. *)
Theorem make_table_described_band_unbound r0 rest band others v values :
  bands r0 = band :: others ->
  band_description band <> "" ->
  flatten (band_array band) = v :: values ->
  0 < RasterXSize r0 * RasterYSize r0 ->
  make_table (r0 :: rest) = Raise (Exn UnboundLocalError "band_name").
Proof.
  intros Hbands Hdesc Hcells Hgrid. unfold make_table.
  cbn [raster_loop]. rewrite Hbands. cbn [band_loop].
  unfold name_band. apply String.eqb_neq in Hdesc. rewrite Hdesc.
  cbn [bind band_name i]. rewrite Hcells. cbn [store_values].
  destruct (Z.to_nat (RasterXSize r0 * RasterYSize r0)) as [|n] eqn:Hn; [lia|].
  reflexivity.
Qed.

Lemma make_table_described_band_unbound_witness :
  let band := Sample.band "temperature" [[NInt 7]] in
  let r0 := Sample.raster "data/bio1.tif" 1 1 [band] in
  band_description band <> ""
  /\ 0 < RasterXSize r0 * RasterYSize r0
  /\ make_table [r0] = Raise (Exn UnboundLocalError "band_name").
Proof.
  intros band r0.
  assert (band_description band <> "") as Hdesc by discriminate.
  assert (0 < RasterXSize r0 * RasterYSize r0) as Hgrid by reflexivity.
  split; [exact Hdesc|]. split; [exact Hgrid|].
  exact (make_table_described_band_unbound r0 [] band [] (NInt 7) []
           eq_refl Hdesc eq_refl Hgrid).
Defined.

(** X25: when the first raster has two bands or more and its first
    band has no description, [make_table] raises [UnboundLocalError]
    on [i]: the name built for the band reads the cell index of a
    loop that has not run yet. *)
Theorem make_table_multiband_unbound r0 rest band band' others :
  bands r0 = band :: band' :: others ->
  band_description band = "" ->
  make_table (r0 :: rest) = Raise (Exn UnboundLocalError "i").
Proof.
  intros Hbands Hdesc. unfold make_table.
  cbn [raster_loop]. unfold RasterCount. rewrite Hbands. cbn [band_loop].
  unfold name_band. rewrite Hdesc. cbn [String.eqb i].
  assert ((1 <? Z.of_nat (length (band :: band' :: others))) = true) as ->
    by (apply Z.ltb_lt; simpl length; lia).
  reflexivity.
Qed.

Lemma make_table_multiband_unbound_witness :
  let r0 := Sample.raster "data/bio1.tif" 1 1
              [Sample.band "" [[NInt 7]]; Sample.band "" [[NInt 8]]] in
  make_table [r0] = Raise (Exn UnboundLocalError "i").
Proof.
  intros r0.
  exact (make_table_multiband_unbound r0 [] _ _ [] eq_refl eq_refl).
Defined.

(** ** A load that raises *)

Lemma load_all_app w pre post :
  load_all w (pre ++ post)%list
  = match load_all w pre with
    | (out, Ok hs) =>
        ((out ++ fst (load_all w post))%list,
         (hs' <- snd (load_all w post) ;; Ok (hs ++ hs')%list))
    | (out, Raise e) => (out, Raise e)
    end.
Proof.
  induction pre as [|f pre IH]; simpl.
  - destruct (load_all w post) as [out [hs|e]]; reflexivity.
  - destruct (load w f None) as [out [h|e]]; [|reflexivity].
    rewrite IH. destruct (load_all w pre) as [out' [hs|e]]; simpl; [|reflexivity].
    rewrite app_assoc. f_equal.
    destruct (snd (load_all w post)); reflexivity.
Qed.

(** X26: an exception of [load] (one raised by the custom-format
    loader; the generic path raises none) ends the pipeline with that
    exception: the output holds what was printed up to that file, and
    the files after it are not loaded. *)
Theorem rasters_to_table_load_raises w pre f post out handles out' e :
  load_all w pre = (out, Ok handles) ->
  load w f None = (out', Raise e) ->
  rasters_to_table w (pre ++ f :: post)%list = ((out ++ out')%list, Raise e).
Proof.
  intros Hpre Hf. unfold rasters_to_table.
  rewrite load_all_app, Hpre. cbn [load_all]. rewrite Hf. reflexivity.
Qed.

Lemma rasters_to_table_load_raises_witness :
  let w := Sample.gdal_world None in
  load_all w ["nowhere.tif"] = (["could not open raster file nowhere.tif"], Ok [None])
  /\ load w "missing.grd" None
     = ([], Raise (Exn TypeError "exceptions must derive from BaseException"))
  /\ rasters_to_table w ["nowhere.tif"; "missing.grd"; "bio1.tif"]
     = (["could not open raster file nowhere.tif"],
        Raise (Exn TypeError "exceptions must derive from BaseException")).
Proof.
  intros w.
  assert (load_all w ["nowhere.tif"]
          = (["could not open raster file nowhere.tif"], Ok [None])) as Hpre by reflexivity.
  assert (load w "missing.grd" None
          = ([], Raise (Exn TypeError "exceptions must derive from BaseException")))
    as Hf by reflexivity.
  split; [exact Hpre|]. split; [exact Hf|].
  exact (rasters_to_table_load_raises w ["nowhere.tif"] "missing.grd" ["bio1.tif"]
           _ _ _ _ Hpre Hf).
Defined.
